(** * hecat, exporters/markdown_multipage: a shallow embedding

    The exporter turns YAML records (software, tags, platforms, licenses)
    into a tree of markdown pages: an index, one page per tag, one page per
    platform, and a stylesheet.  This file embeds
    [src/hecat/exporters/markdown_multipage.py] function by function and
    states the properties of the specification over that embedding.

    Conventions.
    - A Python [str] is a [string], the bytes of its UTF-8 encoding; [+]
      and [str.format] with [{}] holes are [+:+].  The double quote and the line feed are the constants [dq] and
      [nl]; [q s] is [s] between double quotes.
    - A dict with optional keys is a record with [option] fields; ['k' in d]
      and Jinja's [d['k'] is defined] are [is_Some].
    - Effects (files, directories, the clock, exceptions) go through the
      monad [M] over [World].  [logging] calls write no file and are left
      out.
    - [to_kebab_case] and [render_markdown_licenses] live in [hecat/utils.py],
      which is not part of the sources at hand: they are the fields of the
      class [Utils], and every definition is parametric in them.
      [load_yaml_data], of the same file, returns the records that the disk
      holds under a path. *)

From Stdlib Require Import ZArith String Ascii List Bool.
From stdpp Require Import base strings gmap list.

Open Scope string_scope.

(** ** Strings *)

Definition dq : string := String "034" "".
Definition nl : string := String "010" "".
Definition q (s : string) : string := dq +:+ s +:+ dq.

(** [''.join(l)] *)
Fixpoint join (l : list string) : string :=
  match l with
  | [] => ""
  | s :: l' => s +:+ join l'
  end.

(** [needle in haystack] for two strings *)
Fixpoint contains (needle haystack : string) : bool :=
  String.prefix needle haystack ||
  match haystack with
  | EmptyString => false
  | String _ rest => contains needle rest
  end.

(** [part] stands somewhere in [text]. *)
Definition has_part (part text : string) : Prop :=
  exists before after, text = before +:+ part +:+ after.

(** No character of [s] is a slash. *)
Fixpoint slashless (s : string) : bool :=
  match s with
  | EmptyString => true
  | String c rest => negb (Ascii.eqb c "/") && slashless rest
  end.

(** ** The records of the source directory *)

Module Software.
Record t := {
  name : string;
  description : string;
  website_url : string;
  source_code_url : option string;
  related_software_url : option string;
  demo_url : option string;
  licenses : list string;
  tags : list string;
  platforms : option (list string);
  depends_3rdparty : option bool;
  updated_at : option string
}.
End Software.

Module Link.
Record t := { title : string; url : string }.
End Link.

(** A tag or a platform: the platform template reads [name] and
    [description] only. *)
Module Item.
Record t := {
  name : string;
  description : string;
  related_tags : option (list string);
  external_links : option (list Link.t);
  redirect : option (list Link.t)
}.
End Item.

(** The dicts [{"name": ..., "href": ...}] that [render_markdown_software]
    hands to the template. *)
Module Badge.
Record t := { name : string; href : string }.
End Badge.

(** [step['module_options']] *)
Module Step.
Record t := {
  source_directory : string;
  output_directory : string;
  exclude_licenses : option (list string);
  output_file : option string
}.
End Step.

(** ** Module constants *)

(** The stylesheet written by the last step of the pipeline. *)
Definition MARKDOWN_CSS : string :=
"
    .tag {
        background-color: #DBEAFE;
        border-radius: 5px;
        padding: 2px 8px 0px 8px;
        color: #1E40AF;
        font-weight: bold;
        display: inline-block;
    }
    .tag a {
        text-decoration: none
    }
    .platform {
        background-color: #B0E6A3;
        border-radius: 5px;
        padding: 2px 8px 0px 8px;
        color: #2B4026;
        font-weight: bold;
        display: inline-block;
    }
    .platform a {
        text-decoration: none;
        color: #2B4026;
    }
    .license-box {
        background-color: #A7C7F9;
        border-radius: 5px;
        padding: 2px 8px 0px 8px;
        display: inline-block;
    }
    .license-link {
        color: #173B80;
        font-weight: bold;
        text-decoration: none
    }
    .stars {
        background-color: #FFFCAB;
        border-radius: 5px;
        padding: 2px 8px 0px 8px;
        color: #856000;
        font-weight: bold;
        display: inline-block;
    }
    .updated-at {
        background-color: #EFEFEF;
        border-radius: 5px;
        padding: 2px 8px 0px 8px;
        color: #444444;
        display: inline-block;
        font-weight: bold
    }
    .orangebox {
        background-color: #FD9D49;
        border-radius: 5px;
        padding: 2px 8px 0px 8px;
        color: #FFFFFF;
        display: inline-block;
        font-weight: bold
    }
    .redbox {
        background-color: #FD4949;
        border-radius: 5px;
        padding: 2px 8px 0px 8px;
        color: #FFFFFF;
        display: inline-block;
        font-weight: bold
    }
    .external-link-box {
        background-color: #1E40AF;
        border-radius: 5px;
        padding: 2px 8px 0px 8px;
        display: inline-block;
    }
    .external-link {
        color: #DBEAFE;
        font-weight: bold;
        text-decoration: none
    }
    .external-link a:hover {
        color: #FFF;
    }
    .sd-octicon {
        vertical-align: inherit
    }
    hr.docutils {
        margin: 1rem 0;
    }
    .sidebar-brand-text {
        font-size: 1.4rem;
    }
".

Definition MARKDOWN_INDEX_CONTENT_HEADER : string :=
"
--------------------

## Entries

This page lists all entries. Use links in the sidebar or click on {octicon}`tag;0.8em;octicon` tags to browse projects by category.
".

Definition MARKDOWN_TAGPAGE_CONTENT_HEADER : string :=
"
--------------------

## Software

This page lists all projects in this category. Use the [index of all projects](../index.md), the sidebar, or click on {octicon}`tag;0.8em;octicon` tags to browse other categories.

".

Definition MARKDOWN_PLATFORMPAGE_CONTENT_HEADER : string :=
"
--------------------

## Software

This page lists all projects using this programming language or deployment platform. Only the main server-side requirements, packaging or distribution formats are considered.

".

(** ** The helpers imported from [..utils]

    [hecat/utils.py] is not among the sources: [to_kebab_case] (the slug of
    a name) and [render_markdown_licenses] (the licenses block of the index)
    are taken as they come. *)

Module License.
Record t := { identifier : string; name : string; url : string }.
End License.

Class Utils := {
  to_kebab_case : string -> string;
  render_markdown_licenses : Step.t -> list License.t -> string
}.

(** ** The standard library the module calls *)

(** [urllib.parse.quote(s)] with its default [safe='/']: letters, digits
    and [_.-~/] stay, every other byte of the UTF-8 encoding becomes [%XX]. *)
Module urllib_parse.

Definition hexdigit (n : nat) : ascii :=
  match String.get n "0123456789ABCDEF" with
  | Some c => c
  | None => "0"%char
  end.

Definition always_safe (c : ascii) : bool :=
  let n := nat_of_ascii c in
  (Nat.leb 65 n && Nat.leb n 90) || (Nat.leb 97 n && Nat.leb n 122)
  || (Nat.leb 48 n && Nat.leb n 57) || contains (String c "") "_.-~".

Definition quote_byte (c : ascii) : string :=
  if always_safe c || Ascii.eqb c "/" then String c ""
  else
    let n := nat_of_ascii c in
    String "%" (String (hexdigit (n / 16)) (String (hexdigit (n mod 16)) "")).

Fixpoint quote (s : string) : string :=
  match s with
  | EmptyString => ""
  | String c s' => quote_byte c +:+ quote s'
  end.

End urllib_parse.

(** A [str] is kept as its UTF-8 encoding, byte by byte.  [\d] of [re]
    and [int] go by code points: a decimal digit is a code point of the
    category [Nd], and these come in runs of ten, zero to nine. *)
Module unicodedata.
Local Open Scope Z_scope.

(** The code points of the zeros of the category [Nd] (Unicode 14.0, the
    table of CPython 3.11). *)
Definition decimal_zeros : list Z :=
  [ 48; 1632; 1776; 1984; 2406; 2534; 2662; 2790; 2918; 3046; 3174; 3302; 3430; 3558;
    3664; 3792; 3872; 4160; 4240; 6112; 6160; 6470; 6608; 6784; 6800; 6992; 7088; 7232;
    7248; 42528; 43216; 43264; 43472; 43504; 43600; 44016; 65296; 66720; 68912; 69734;
    69872; 69942; 70096; 70384; 70736; 70864; 71248; 71360; 71472; 71904; 72016; 72784;
    73040; 73120; 92768; 92864; 93008; 120782; 120792; 120802; 120812; 120822; 123200;
    123632; 125264; 130032 ].

(** A byte [10xxxxxx] and its six bits. *)
Definition continuation (c : ascii) : option Z :=
  let n := Z.of_nat (nat_of_ascii c) in
  if (128 <=? n) && (n <=? 191) then Some (n - 128) else None.

(** The first code point of a text and what follows it. *)
Definition decode (s : string) : option (Z * string) :=
  match s with
  | EmptyString => None
  | String c0 s1 =>
      let n := Z.of_nat (nat_of_ascii c0) in
      if n <? 128 then Some (n, s1)
      else if (192 <=? n) && (n <? 224) then
        match s1 with
        | String c1 s2 =>
            match continuation c1 with
            | Some a => Some ((n - 192) * 64 + a, s2)
            | None => None
            end
        | _ => None
        end
      else if (224 <=? n) && (n <? 240) then
        match s1 with
        | String c1 (String c2 s3) =>
            match continuation c1, continuation c2 with
            | Some a, Some b => Some (((n - 224) * 64 + a) * 64 + b, s3)
            | _, _ => None
            end
        | _ => None
        end
      else if (240 <=? n) && (n <? 248) then
        match s1 with
        | String c1 (String c2 (String c3 s4)) =>
            match continuation c1, continuation c2, continuation c3 with
            | Some a, Some b, Some c => Some ((((n - 240) * 64 + a) * 64 + b) * 64 + c, s4)
            | _, _, _ => None
            end
        | _ => None
        end
      else None
  end.

(** [unicodedata.decimal(chr(code_point))], when there is one. *)
Definition decimal_value (code_point : Z) : option Z :=
  match find (fun zero => (zero <=? code_point) && (code_point <? zero + 10)) decimal_zeros with
  | Some zero => Some (code_point - zero)
  | None => None
  end.

(** One decimal digit at the start of a text: its value and the rest. *)
Definition decimal (s : string) : option (Z * string) :=
  match decode s with
  | Some (code_point, rest) =>
      match decimal_value code_point with
      | Some d => Some (d, rest)
      | None => None
      end
  | None => None
  end.

End unicodedata.

(** Naive [datetime] values are counted in microseconds from the start of
    day 0 of the proleptic Gregorian calendar (0001-01-01 is day 1, as in
    [date.toordinal]); a [timedelta] is a number of microseconds. *)
Module datetime.
Local Open Scope Z_scope.

Definition t := Z.

Definition microseconds_per_day : Z := 86400 * 1000000.

Definition timedelta (days : Z) : Z := days * microseconds_per_day.

Definition is_leap (year : Z) : bool :=
  (year mod 4 =? 0) && (negb (year mod 100 =? 0) || (year mod 400 =? 0)).

Definition days_before_year (year : Z) : Z :=
  let y := year - 1 in y * 365 + y / 4 - y / 100 + y / 400.

Definition days_in_month (year month : Z) : Z :=
  if month =? 2 then (if is_leap year then 29 else 28)
  else if (month =? 4) || (month =? 6) || (month =? 9) || (month =? 11) then 30
  else 31.

Fixpoint days_before_month_upto (year : Z) (m : nat) : Z :=
  match m with
  | O => 0
  | S m' => days_before_month_upto year m' + days_in_month year (Z.of_nat m)
  end.

Definition days_before_month (year month : Z) : Z :=
  days_before_month_upto year (Z.to_nat (month - 1)).

Definition ymd2ord (year month day : Z) : Z :=
  days_before_year year + days_before_month year month + day.

(** [datetime(year, month, day)]: [None] is the [ValueError] of a date out
    of range. *)
Definition of_ymd (year month day : Z) : option t :=
  if (1 <=? year) && (year <=? 9999) && (1 <=? month) && (month <=? 12)
     && (1 <=? day) && (day <=? days_in_month year month)
  then Some (ymd2ord year month day * microseconds_per_day)
  else None.

Definition digit (c : ascii) : option Z :=
  let n := Z.of_nat (nat_of_ascii c) in
  if (48 <=? n) && (n <=? 57) then Some (n - 48) else None.

Definition digit_in (lo hi : Z) (c : ascii) : option Z :=
  match digit c with
  | Some d => if (lo <=? d) && (d <=? hi) then Some d else None
  | None => None
  end.

(** The directive [%m], read as the regular expression
    [1[0-2]|0[1-9]|[1-9]] reads it: the value and the rest of the text.
    The classes of this expression are ranges of ASCII digits. *)
Definition read_month (s : string) : option (Z * string) :=
  match s with
  | String c1 rest1 =>
      let one := match digit_in 1 9 c1 with
                 | Some d => Some (d, rest1)
                 | None => None
                 end in
      match rest1 with
      | String c2 rest2 =>
          if Ascii.eqb c1 "1" then
            match digit_in 0 2 c2 with
            | Some d => Some (10 + d, rest2)
            | None => one
            end
          else if Ascii.eqb c1 "0" then
            match digit_in 1 9 c2 with
            | Some d => Some (d, rest2)
            | None => one
            end
          else one
      | EmptyString => one
      end
  | EmptyString => None
  end.

(** The directive [%d]: [3[0-1]|[1-2]\d|0[1-9]|[1-9]| [1-9]].  The second
    digit of [[1-2]\d] is any decimal digit. *)
Definition read_day (s : string) : option (Z * string) :=
  match s with
  | String c1 rest1 =>
      let one := match digit_in 1 9 c1 with
                 | Some d => Some (d, rest1)
                 | None => None
                 end in
      if Ascii.eqb c1 "3" then
        match rest1 with
        | String c2 rest2 =>
            match digit_in 0 1 c2 with
            | Some d => Some (30 + d, rest2)
            | None => one
            end
        | EmptyString => one
        end
      else if Ascii.eqb c1 "1" || Ascii.eqb c1 "2" then
        match digit c1, unicodedata.decimal rest1 with
        | Some d1, Some (d2, rest2) => Some (10 * d1 + d2, rest2)
        | _, _ => one
        end
      else if Ascii.eqb c1 "0" || Ascii.eqb c1 " " then
        match rest1 with
        | String c2 rest2 =>
            match digit_in 1 9 c2 with
            | Some d => Some (d, rest2)
            | None => one
            end
        | EmptyString => one
        end
      else one
  | EmptyString => None
  end.

(** The directive [%Y]: [\d\d\d\d], four decimal digits of any script,
    which [int] then reads. *)
Definition read_year (s : string) : option (Z * string) :=
  match unicodedata.decimal s with
  | Some (a, s) =>
      match unicodedata.decimal s with
      | Some (b, s) =>
          match unicodedata.decimal s with
          | Some (c, s) =>
              match unicodedata.decimal s with
              | Some (d, s) => Some (1000 * a + 100 * b + 10 * c + d, s)
              | None => None
              end
          | None => None
          end
      | None => None
      end
  | None => None
  end.

(** [datetime.strptime(s, "%Y-%m-%d")]; [None] is [ValueError]: the text
    does not match the format, some of it is left over, or the day is not
    one of the calendar. *)
Definition strptime_ymd (s : string) : option t :=
  match read_year s with
  | Some (year, String "-" rest) =>
      match read_month rest with
      | Some (month, String "-" rest') =>
          match read_day rest' with
          | Some (day, EmptyString) => of_ymd year month day
          | _ => None
          end
      | _ => None
      end
  | _ => None
  end.

End datetime.

(** ** Effects: exceptions, the file system, the clock *)

Inductive exn :=
| FileNotFoundError (path : string)
| FileExistsError (path : string)
| IsADirectoryError (path : string)
| NotADirectoryError (path : string)
| ValueError (value : string)
| KeyError (key : string)
| SystemExit (code : Z).

Inductive result (A : Type) :=
| Ok (a : A)
| Raise (e : exn).
Arguments Ok {A} a.
Arguments Raise {A} e.

(** The disk: directories, text files with their content, the records that
    [load_yaml_data] returns for a path of the source directory, and the log
    of the [outfile.write] calls so far, oldest first. *)
Record FS := {
  dirs : gset string;
  files : gmap string string;
  yaml_items : string -> list Item.t;
  yaml_software : string -> list Software.t;
  yaml_licenses : string -> list License.t;
  written : list (string * string)
}.

(** The disk and the successive readings of [datetime.now()]. *)
Record World := {
  fs : FS;
  clock : nat -> Z
}.

Definition with_fs (w : World) (f : FS) : World :=
  {| fs := f; clock := clock w |}.

Definition M (A : Type) : Type := World -> result A * World.

Definition ret {A} (a : A) : M A := fun w => (Ok a, w).

Definition raise {A} (e : exn) : M A := fun w => (Raise e, w).

Definition bind {A B} (m : M A) (k : A -> M B) : M B :=
  fun w =>
    match m w with
    | (Ok a, w') => k a w'
    | (Raise e, w') => (Raise e, w')
    end.

Notation "'do' x <- m ; k" := (bind m (fun x => k))
  (at level 10, x name, m at level 100, k at level 200, only parsing).

(** [for x in l: acc = body(acc, x)] *)
Fixpoint for_acc {A B} (body : B -> A -> M B) (acc : B) (l : list A) : M B :=
  match l with
  | [] => ret acc
  | x :: l' => do acc' <- body acc x; for_acc body acc' l'
  end.

(** [for x in l: body(x)] *)
Definition for_each {A} (body : A -> M unit) (l : list A) : M unit :=
  for_acc (fun _ x => body x) tt l.


(** [try: m  except FileExistsError: pass] *)
Definition except_FileExistsError_pass (m : M unit) : M unit :=
  fun w =>
    match m w with
    | (Raise (FileExistsError _), w') => (Ok tt, w')
    | r => r
    end.

(** [datetime.now()]: the next reading of the clock. *)
Definition datetime_now : M datetime.t :=
  fun w =>
    (Ok (clock w 0), {| fs := fs w; clock := fun n => clock w (S n) |}).

(** [load_yaml_data(path)], for each of the three kinds of records. *)
Definition load_yaml_items (path : string) : M (list Item.t) :=
  fun w => (Ok (yaml_items (fs w) path), w).
Definition load_yaml_software (path : string) : M (list Software.t) :=
  fun w => (Ok (yaml_software (fs w) path), w).
Definition load_yaml_licenses (path : string) : M (list License.t) :=
  fun w => (Ok (yaml_licenses (fs w) path), w).

(** Paths are resolved as texts: trailing slashes are dropped, and neither
    [.], [..], repeated slashes nor links are interpreted.  The empty path
    stands for the current directory and for the root.  On a disk the
    directory of an entry is a directory only if every name on the way to
    it is one: the calls below look at the directory of their path first,
    and walk the names on the way to tell which error a missing one gives. *)
Module os.

(** [p.rstrip('/')] *)
Fixpoint rstrip_slash (p : string) : string :=
  match p with
  | EmptyString => ""
  | String c p' =>
      match rstrip_slash p' with
      | EmptyString => if Ascii.eqb c "/" then "" else String c ""
      | r => String c r
      end
  end.

(** [p.rpartition('/')], when [p] has a slash: what is before the last
    one and what is after it. *)
Fixpoint split_last (p : string) : option (string * string) :=
  match p with
  | EmptyString => None
  | String c p' =>
      match split_last p' with
      | Some (h, t) => Some (String c h, t)
      | None => if Ascii.eqb c "/" then Some ("", p') else None
      end
  end.

(** The directory an entry named [p] lives in. *)
Definition dirname (p : string) : string :=
  match split_last (rstrip_slash p) with
  | Some (h, _) => rstrip_slash h
  | None => ""
  end.

Definition isdir (f : FS) (p : string) : bool :=
  bool_decide (rstrip_slash p ∈ dirs f).

Definition isfile (f : FS) (p : string) : bool :=
  bool_decide (is_Some (files f !! rstrip_slash p)).

Definition add_dir (p : string) (f : FS) : FS :=
  {| dirs := {[rstrip_slash p]} ∪ dirs f; files := files f;
     yaml_items := yaml_items f; yaml_software := yaml_software f;
     yaml_licenses := yaml_licenses f; written := written f |}.

Definition write_file (p text : string) (f : FS) : FS :=
  {| dirs := dirs f; files := <[p := text]> (files f);
     yaml_items := yaml_items f; yaml_software := yaml_software f;
     yaml_licenses := yaml_licenses f; written := written f ++ [(p, text)] |}.

(** The directory that [p] lives in is there. *)
Definition parent_isdir (f : FS) (p : string) : bool :=
  bool_decide (dirname p ∈ dirs f).

(** The names of [p], what its slashes separate; [name] is the one being
    read. *)
Fixpoint names_from (name p : string) : list string :=
  match p with
  | EmptyString => [name]
  | String c rest =>
      if Ascii.eqb c "/" then name :: names_from "" rest
      else names_from (name +:+ String c "") rest
  end.

(** [p] is spelled plainly: none of its names is [.] or [..], and none but
    the one before the first slash of an absolute path is empty.  A path
    spelled otherwise names what a plain spelling names, which the calls
    below do not work out: what they say of a missing entry is said of
    plain spellings. *)
Definition plain (p : string) : bool :=
  match names_from "" p with
  | first :: rest =>
      negb (String.eqb first ".") && negb (String.eqb first "..")
      && forallb (fun name => negb (String.eqb name "") && negb (String.eqb name ".")
                              && negb (String.eqb name "..")) rest
  | [] => true
  end.

(** The names on the way to [p], outermost first: what stands before each
    slash of [p].  [before] is what was read so far. *)
Fixpoint on_the_way_from (before p : string) : list string :=
  match p with
  | EmptyString => []
  | String c rest =>
      if Ascii.eqb c "/" then before :: on_the_way_from (before +:+ "/") rest
      else on_the_way_from (before +:+ String c "") rest
  end.

Definition on_the_way (p : string) : list string := on_the_way_from "" p.

(** The first of the names [way] that is no directory is a regular file:
    the walk stops with [ENOTDIR].  When it is nothing at all, or when
    every name is a directory, the walk does not stop so. *)
Fixpoint blocked (f : FS) (way : list string) : bool :=
  match way with
  | [] => false
  | name :: way' =>
      if String.eqb (rstrip_slash name) "" || isdir f name then blocked f way'
      else isfile f name
  end.

(** What a call raises for [path] when a name on the way to where it
    goes, [walked], is no directory. *)
Definition no_way (f : FS) (walked path : string) : exn :=
  if blocked f (on_the_way walked) then NotADirectoryError path
  else FileNotFoundError path.

(** [os.mkdir(path)]: a final slash is part of the name to make. *)
Definition mkdir (path : string) : M unit :=
  fun w =>
    if isdir (fs w) path || isfile (fs w) path then (Raise (FileExistsError path), w)
    else if parent_isdir (fs w) path then (Ok tt, with_fs w (add_dir path (fs w)))
    else (Raise (no_way (fs w) (rstrip_slash path) path), w).

(** [path] names a directory: it ends with a slash, or is one of [dirs]. *)
Definition names_dir (f : FS) (path : string) : bool :=
  negb (String.eqb (rstrip_slash path) path) || isdir f path.

(** Whether [open(path, 'w+')] succeeds: [path] names no directory and the
    directory it lives in exists. *)
Definition can_write (f : FS) (path : string) : bool :=
  negb (names_dir f path) && parent_isdir f path.

(** What [open(path, 'r')] raises when no file stands at [path]. *)
Definition no_file (f : FS) (path : string) : exn :=
  if isdir f path then IsADirectoryError path else no_way f path path.

(** [with open(path, 'r', encoding="utf-8") as f: f.read()] *)
Definition open_read (path : string) : M string :=
  fun w =>
    match files (fs w) !! path with
    | Some text => (Ok text, w)
    | None => (Raise (no_file (fs w) path), w)
    end.

(** [with open(path, 'w+', encoding="utf-8") as outfile: outfile.write(text)]:
    the names on the way are walked before the last one is looked at. *)
Definition open_write (path text : string) : M unit :=
  fun w =>
    if negb (parent_isdir (fs w) path) && negb (isdir (fs w) path)
    then (Raise (no_way (fs w) path path), w)
    else if names_dir (fs w) path then (Raise (IsADirectoryError path), w)
    else (Ok tt, with_fs w (write_file path text (fs w))).

End os.

(** ** The Jinja templates

    Each template is the function that [Template(...).render] computes
    with Jinja's defaults: text is copied, [{{ e }}] prints [e], [-%}]
    removes the whitespace after its tag, [{% raw %}] copies its body, and
    the last line feed of the template is dropped. *)

(** [SOFTWARE_JINJA_MARKDOWN].  The template is handed [date_css_class]
    and refers to it nowhere. *)
Definition SOFTWARE_JINJA_MARKDOWN (software : Software.t)
    (tags platforms : list Badge.t)
    (date_css_class licenses_relative_url : string) : string :=
  nl +:+ "--------------------" +:+ nl
  +:+ nl
  +:+ "### " +:+ Software.name software +:+ nl
  +:+ nl
  +:+ Software.description software +:+ nl
  +:+ nl
  +:+ "<span class=" +:+ q "external-link-box" +:+ "><a class=" +:+ q "external-link"
      +:+ " href=" +:+ q (Software.website_url software) +:+ " target=" +:+ q "_blank"
      +:+ ">{octicon}`globe;0.8em;octicon` Website</a></span>" +:+ nl
  +:+ match Software.source_code_url software with
      | Some source_code_url =>
          "<span class=" +:+ q "external-link-box" +:+ "><a class=" +:+ q "external-link"
          +:+ " href=" +:+ q source_code_url +:+ " target=" +:+ q "_blank"
          +:+ ">{octicon}`git-branch;0.8em;octicon` Source Code</a></span>"
      | None => ""
      end +:+ nl
  +:+ match Software.related_software_url software with
      | Some related_software_url =>
          "<span class=" +:+ q "external-link-box" +:+ "><a class=" +:+ q "external-link"
          +:+ " href=" +:+ q related_software_url +:+ " target=" +:+ q "_blank"
          +:+ ">{octicon}`package;0.8em;octicon` Clients</a></span>" +:+ nl
      | None => ""
      end
  +:+ match Software.demo_url software with
      | Some demo_url =>
          "<span class=" +:+ q "external-link-box" +:+ "><a class=" +:+ q "external-link"
          +:+ " href=" +:+ q demo_url +:+ " target=" +:+ q "_blank"
          +:+ ">{octicon}`play;0.8em;octicon` Demo</a></span>" +:+ nl
      | None => ""
      end +:+ nl
  +:+ nl
  +:+ join (map (fun platform =>
        "<span class=" +:+ q "platform" +:+ "><a href=" +:+ q (Badge.href platform)
        +:+ ">{octicon}`package;0.8em;octicon` " +:+ Badge.name platform
        +:+ "</a> </span> ") platforms) +:+ nl
  +:+ join (map (fun license =>
        "<span class=" +:+ q "license-box" +:+ "><a class=" +:+ q "license-link"
        +:+ " href=" +:+ q licenses_relative_url
        +:+ ">{octicon}`law;0.8em;octicon` " +:+ license
        +:+ "</a> </span> ") (Software.licenses software)) +:+ nl
  +:+ match Software.depends_3rdparty software with
      | Some true =>
          "<span class=" +:+ q "orangebox" +:+ " title="
          +:+ q "Depends on a proprietary service outside the user's control"
          +:+ ">⚠ Anti-features</span>"
      | _ => ""
      end +:+ nl
  +:+ nl
  +:+ join (map (fun tag =>
        "<span class=" +:+ q "tag" +:+ "><a href=" +:+ q (Badge.href tag)
        +:+ ">{octicon}`tag;0.8em;octicon` " +:+ Badge.name tag
        +:+ "</a> </span>" +:+ nl) tags)
  +:+ nl.

(** [PLATFORM_HEADER_JINJA_MARKDOWN] *)
Definition PLATFORM_HEADER_JINJA_MARKDOWN (item : Item.t) : string :=
  nl
  +:+ nl
  +:+ "# " +:+ Item.name item +:+ nl
  +:+ nl
  +:+ Item.description item +:+ nl.

(** [', '.join(l)], what the [redirect] loop prints with its
    [{% if not loop.last %}{{', '}}{% endif %}]. *)
Fixpoint join_comma (l : list string) : string :=
  match l with
  | [] => ""
  | [x] => x
  | x :: l' => x +:+ ", " +:+ join_comma l'
  end.

Section exporter.
Context `{Utils}.

(** [TAG_HEADER_JINJA_MARKDOWN], with [to_kebab_case] among its globals. *)
Definition TAG_HEADER_JINJA_MARKDOWN (item : Item.t) : string :=
  nl
  +:+ nl
  +:+ "# " +:+ Item.name item +:+ nl
  +:+ nl
  +:+ Item.description item +:+ nl
  +:+ nl
  +:+ match Item.related_tags item with
      | Some related_tags =>
          "```{admonition} Related tags" +:+ nl
          +:+ join (map (fun related_tag =>
                "- [" +:+ related_tag +:+ "](" +:+ to_kebab_case related_tag +:+ ".md)"
                +:+ nl) related_tags) +:+ nl
          +:+ "```" +:+ nl
      | None => ""
      end +:+ nl
  +:+ match Item.external_links item with
      | Some external_links =>
          "```{seealso}" +:+ nl
          +:+ join (map (fun link =>
                "- [" +:+ Link.title link +:+ "](" +:+ Link.url link +:+ ")" +:+ nl)
                external_links) +:+ nl
          +:+ "```"
      | None => ""
      end +:+ nl
  +:+ match Item.redirect item with
      | Some redirect =>
          "```{important}" +:+ nl
          +:+ "**Please visit "
          +:+ join_comma (map (fun redirect =>
                "[" +:+ Link.title redirect +:+ "](" +:+ Link.url redirect +:+ ")")
                redirect)
          +:+ " instead**" +:+ nl
          +:+ "```"
      | None => ""
      end +:+ nl.

(** ** The functions of the module *)

(** The two loops that fill [tags_dicts_list] and [platforms_dicts_list]:
    each appends one dict per label. *)
Definition dicts_list (relative_url : string) (labels : list string) : list Badge.t :=
  fold_left
    (fun dicts label =>
       (dicts ++ [{| Badge.name := label;
                     Badge.href := relative_url
                                   +:+ urllib_parse.quote (to_kebab_case label)
                                   +:+ ".html" |}])%list)
    labels [].

(** The class of the age badge, lines 263 to 269. *)
Definition date_css_class_of (software : Software.t) : M string :=
  match Software.updated_at software with
  | Some updated_at =>
      do last_update_time <-
        match datetime.strptime_ymd updated_at with
        | Some t => ret t
        | None => raise (ValueError updated_at)
        end;
      do now <- datetime_now;
      if (last_update_time <? now - datetime.timedelta 365)%Z then ret "redbox"
      else
        do now <- datetime_now;
        if (last_update_time <? now - datetime.timedelta 186)%Z then ret "orangebox"
        else ret "updated-at"
  | None => ret "updated-at"
  end.

Definition render_markdown_software (software : Software.t)
    (tags_relative_url platforms_relative_url licenses_relative_url : string) : M string :=
  let tags_dicts_list := dicts_list tags_relative_url (Software.tags software) in
  let platforms_dicts_list :=
    match Software.platforms software with
    | Some platforms => dicts_list platforms_relative_url platforms
    | None => []
    end in
  do date_css_class <- date_css_class_of software;
  let markdown_software :=
    SOFTWARE_JINJA_MARKDOWN software tags_dicts_list platforms_dicts_list
      date_css_class licenses_relative_url in
  ret markdown_software.

(** [step['module_options']['exclude_licenses']] *)
Definition exclude_licenses_of (step : Step.t) : M (list string) :=
  match Step.exclude_licenses step with
  | Some l => ret l
  | None => raise (KeyError "exclude_licenses")
  end.

(** [any(license in software['licenses'] for license in exclude_licenses)] *)
Definition any_license_excluded (software : Software.t) (exclude_licenses : list string) : bool :=
  existsb (fun license => bool_decide (license ∈ Software.licenses software))
    exclude_licenses.

(** What the two branches of [render_item_page] set. *)
Record PageKind := {
  markdown_fieldlist : string;
  header_template : Item.t -> string;
  content_header : string;
  match_key : Software.t -> option (list string);
  tags_relative_url : string;
  platforms_relative_url : string;
  output_dir : string
}.

(** Lines 288 to 294. *)
Definition tag_page (step : Step.t) : PageKind :=
  {| markdown_fieldlist := "";
     header_template := TAG_HEADER_JINJA_MARKDOWN;
     content_header := MARKDOWN_TAGPAGE_CONTENT_HEADER;
     match_key := fun software => Some (Software.tags software);
     tags_relative_url := "./";
     platforms_relative_url := "../platforms/";
     output_dir := Step.output_directory step +:+ "/md/tags/" |}.

(** Lines 296 to 302. *)
Definition platform_page (step : Step.t) : PageKind :=
  {| markdown_fieldlist := ":orphan:" +:+ nl +:+ ":nosearch:" +:+ nl;
     header_template := PLATFORM_HEADER_JINJA_MARKDOWN;
     content_header := MARKDOWN_PLATFORMPAGE_CONTENT_HEADER;
     match_key := Software.platforms;
     tags_relative_url := "../tags/";
     platforms_relative_url := "./";
     output_dir := Step.output_directory step +:+ "/md/platforms/" |}.

Definition page_kind (step : Step.t) (item_type : string) : M PageKind :=
  if String.eqb item_type "tag" then ret (tag_page step)
  else if String.eqb item_type "platform" then ret (platform_page step)
  else raise (SystemExit 1).

(** [match_key in software and
     any(value == item['name'] for value in software[match_key])] *)
Definition matches (k : PageKind) (item : Item.t) (software : Software.t) : bool :=
  match match_key k software with
  | Some values => existsb (fun value => String.eqb value (Item.name item)) values
  | None => false
  end.

(** The loop of lines 309 to 316. *)
Definition item_page_software_list (step : Step.t) (k : PageKind) (item : Item.t)
    (software_list : list Software.t) : M string :=
  for_acc
    (fun markdown_software_list software =>
       do exclude_licenses <- exclude_licenses_of step;
       if any_license_excluded software exclude_licenses then ret markdown_software_list
       else if matches k item software then
         do markdown_software <-
           render_markdown_software software (tags_relative_url k)
             (platforms_relative_url k) "../index.html#list-of-licenses";
         ret (markdown_software_list +:+ markdown_software)
       else ret markdown_software_list)
    "" software_list.

Definition render_item_page (step : Step.t) (item_type : string) (item : Item.t)
    (software_list : list Software.t) : M unit :=
  do k <- page_kind step item_type;
  let markdown_page_header := header_template k item in
  do markdown_software_list <- item_page_software_list step k item software_list;
  let markdown_page :=
    match markdown_software_list with
    | String _ _ =>
        markdown_fieldlist k +:+ markdown_page_header +:+ content_header k
        +:+ markdown_software_list
    | EmptyString => markdown_page_header
    end in
  let output_file_name := output_dir k +:+ to_kebab_case (Item.name item +:+ ".md") in
  os.open_write output_file_name markdown_page.

Definition render_markdown_toctree (tags : list Item.t) : string :=
  let tags_files_list :=
    fold_left
      (fun tags_files_list tag =>
         let tag_file_name := "tags/" +:+ to_kebab_case (Item.name tag +:+ ".md") in
         tags_files_list +:+ nl +:+ tag_file_name)
      tags "" in
  nl +:+ "```{toctree}" +:+ nl +:+ ":maxdepth: 1" +:+ nl +:+ ":hidden:" +:+ nl
  +:+ tags_files_list +:+ nl +:+ "```" +:+ nl +:+ nl.

(** Lines 341 to 344: the defaults of the two optional options. *)
Definition with_defaults (step : Step.t) : Step.t :=
  {| Step.source_directory := Step.source_directory step;
     Step.output_directory := Step.output_directory step;
     Step.exclude_licenses :=
       match Step.exclude_licenses step with
       | Some l => Some l
       | None => Some []
       end;
     Step.output_file :=
       match Step.output_file step with
       | Some f => Some f
       | None => Some "index.md"
       end |}.

(** [step['module_options']['output_file']] *)
Definition output_file_of (step : Step.t) : M string :=
  match Step.output_file step with
  | Some f => ret f
  | None => raise (KeyError "output_file")
  end.

(** The loop of lines 358 to 362. *)
Definition index_software_list (step : Step.t) (software_list : list Software.t)
    : M string :=
  for_acc
    (fun markdown_software_list software =>
       do exclude_licenses <- exclude_licenses_of step;
       if any_license_excluded software exclude_licenses then ret markdown_software_list
       else
         do markdown_software <-
           render_markdown_software software "tags/" "platforms/" "#list-of-licenses";
         ret (markdown_software_list +:+ markdown_software))
    "" software_list.

Definition render_markdown_multipage (step : Step.t) : M unit :=
  let step := with_defaults step in
  do tags <- load_yaml_items (Step.source_directory step +:+ "/tags");
  do platforms <- load_yaml_items (Step.source_directory step +:+ "/platforms");
  do software_list <- load_yaml_software (Step.source_directory step +:+ "/software");
  do licenses <- load_yaml_licenses (Step.source_directory step +:+ "/licenses.yml");
  let markdown_fieldlist := ":tocdepth: 2" +:+ nl in
  let markdown_content_header := MARKDOWN_INDEX_CONTENT_HEADER in
  do markdown_header <-
    os.open_read (Step.source_directory step +:+ "/markdown/header.md");
  do markdown_footer <-
    os.open_read (Step.source_directory step +:+ "/markdown/footer.md");
  let markdown_toctree := render_markdown_toctree tags in
  do markdown_software_list <- index_software_list step software_list;
  let markdown_licenses := render_markdown_licenses step licenses in
  let markdown :=
    markdown_fieldlist +:+ markdown_header +:+ markdown_content_header
    +:+ markdown_toctree +:+ markdown_software_list +:+ markdown_licenses
    +:+ markdown_footer in
  do output_file <- output_file_of step;
  let output_file_name := Step.output_directory step +:+ "/md/" +:+ output_file in
  do _ <-
    for_each
      (fun directory =>
         except_FileExistsError_pass (os.mkdir (Step.output_directory step +:+ directory)))
      ["/md/"; "/md/tags/"; "/md/platforms/"];
  do _ <- os.open_write output_file_name markdown;
  do _ <- for_each (fun tag => render_item_page step "tag" tag software_list) tags;
  do _ <-
    for_each (fun platform => render_item_page step "platform" platform software_list)
      platforms;
  do _ <- except_FileExistsError_pass (os.mkdir (Step.output_directory step +:+ "/_static"));
  let output_css_file_name :=
    Step.source_directory step +:+ "/html/_static/custom.css" in
  os.open_write output_css_file_name MARKDOWN_CSS.

(** ** Notions the properties are stated with *)

(** [updated_at] is absent, or a date that [strptime] reads. *)
Definition well_dated (software : Software.t) : bool :=
  match Software.updated_at software with
  | Some updated_at => bool_decide (is_Some (datetime.strptime_ymd updated_at))
  | None => true
  end.

(** The fragment of a project, for given link bases.  The class handed to
    the template is the default one: the template does not read it. *)
Definition fragment (tags_relative_url platforms_relative_url licenses_relative_url : string)
    (software : Software.t) : string :=
  SOFTWARE_JINJA_MARKDOWN software
    (dicts_list tags_relative_url (Software.tags software))
    (match Software.platforms software with
     | Some platforms => dicts_list platforms_relative_url platforms
     | None => []
     end)
    "updated-at" licenses_relative_url.

(** The projects shown on the index, in the order of the input. *)
Definition index_projects (exclude_licenses : list string)
    (software_list : list Software.t) : list Software.t :=
  List.filter (fun software => negb (any_license_excluded software exclude_licenses))
    software_list.

(** The projects shown on the page of [item], in the order of the input. *)
Definition page_projects (k : PageKind) (item : Item.t) (exclude_licenses : list string)
    (software_list : list Software.t) : list Software.t :=
  List.filter
    (fun software =>
       negb (any_license_excluded software exclude_licenses) && matches k item software)
    software_list.

(** The fragment of a project on a page of kind [k]. *)
Definition page_fragment (k : PageKind) : Software.t -> string :=
  fragment (tags_relative_url k) (platforms_relative_url k) "../index.html#list-of-licenses".

(** The text of the page of [item] when [projects] are the projects shown
    on it. *)
Definition page_markdown (k : PageKind) (item : Item.t) (projects : list Software.t)
    : string :=
  match projects with
  | [] => header_template k item
  | _ :: _ =>
      markdown_fieldlist k +:+ header_template k item +:+ content_header k
      +:+ join (map (page_fragment k) projects)
  end.

(** The path of the page of [item]. *)
Definition page_path (k : PageKind) (item : Item.t) : string :=
  output_dir k +:+ to_kebab_case (Item.name item +:+ ".md").

(** [step['module_options']['output_file']] once the defaults are set. *)
Definition output_file_name_of (step : Step.t) : string :=
  default "index.md" (Step.output_file step).


(** The text of the index, from the disk [f] and the texts of the header
    and footer files. *)
Definition index_markdown (step : Step.t) (f : FS) (markdown_header markdown_footer : string)
    : string :=
  (":tocdepth: 2" +:+ nl) +:+ markdown_header +:+ MARKDOWN_INDEX_CONTENT_HEADER
  +:+ render_markdown_toctree (yaml_items f (Step.source_directory step +:+ "/tags"))
  +:+ join (map (fragment "tags/" "platforms/" "#list-of-licenses")
              (index_projects (default [] (Step.exclude_licenses step))
                 (yaml_software f (Step.source_directory step +:+ "/software"))))
  +:+ render_markdown_licenses (with_defaults step)
        (yaml_licenses f (Step.source_directory step +:+ "/licenses.yml"))
  +:+ markdown_footer.

(** [software] without its key [updated_at]. *)
Definition without_updated_at (software : Software.t) : Software.t :=
  {| Software.name := Software.name software;
     Software.description := Software.description software;
     Software.website_url := Software.website_url software;
     Software.source_code_url := Software.source_code_url software;
     Software.related_software_url := Software.related_software_url software;
     Software.demo_url := Software.demo_url software;
     Software.licenses := Software.licenses software;
     Software.tags := Software.tags software;
     Software.platforms := Software.platforms software;
     Software.depends_3rdparty := Software.depends_3rdparty software;
     Software.updated_at := None |}.



End exporter.

(** ** A sample source directory

    The examples below run the exporter on these records. *)

(** Modelled from the spec: [to_kebab_case] of [hecat/utils.py] is not
    among the sources.  Section 4.1 asks for a lowercase, hyphen-separated
    token that is safe as a file name: this instance turns an ASCII capital
    into its small letter and a space into a hyphen, and drops slashes.  It
    serves the examples only; the theorems hold for every instance. *)
Fixpoint sample_to_kebab_case (name : string) : string :=
  match name with
  | EmptyString => ""
  | String c rest =>
      let n := nat_of_ascii c in
      if Ascii.eqb c " " then String "-" (sample_to_kebab_case rest)
      else if Ascii.eqb c "/" then sample_to_kebab_case rest
      else if Nat.leb 65 n && Nat.leb n 90
           then String (ascii_of_nat (n + 32)) (sample_to_kebab_case rest)
      else String c (sample_to_kebab_case rest)
  end.

(** Modelled from the spec: [render_markdown_licenses] of [hecat/utils.py]
    is not among the sources.  Section 4.4 calls its result a
    licenses-summary block made from the full license list and the
    exclusion list: this instance prints a heading and one line per license
    that is not excluded. *)
Definition sample_render_markdown_licenses (step : Step.t) (licenses : list License.t)
    : string :=
  nl +:+ "## List of Licenses" +:+ nl +:+ nl
  +:+ join (map (fun license =>
        if bool_decide (License.identifier license ∈ default [] (Step.exclude_licenses step))
        then ""
        else "- `" +:+ License.identifier license +:+ "` - [" +:+ License.name license
             +:+ "](" +:+ License.url license +:+ ")" +:+ nl) licenses).

Definition sample_utils : Utils := {|
  to_kebab_case := sample_to_kebab_case;
  render_markdown_licenses := sample_render_markdown_licenses
|}.

Definition wikis : Item.t := {|
  Item.name := "Wikis";
  Item.description := "Collaborative documentation.";
  Item.related_tags := Some ["Note-taking & Editors"];
  Item.external_links := None;
  Item.redirect := None
|}.

Definition games : Item.t := {|
  Item.name := "Games";
  Item.description := "Multiplayer game servers.";
  Item.related_tags := None;
  Item.external_links := None;
  Item.redirect := None
|}.

Definition python : Item.t := {|
  Item.name := "Python";
  Item.description := "Software written in Python.";
  Item.related_tags := None;
  Item.external_links := None;
  Item.redirect := None
|}.

(** Last updated on 2020-01-01. *)
Definition foo : Software.t := {|
  Software.name := "Foo";
  Software.description := "A wiki engine.";
  Software.website_url := "https://foo.example";
  Software.source_code_url := Some "https://git.foo.example";
  Software.related_software_url := None;
  Software.demo_url := None;
  Software.licenses := ["MIT"];
  Software.tags := ["Wikis"];
  Software.platforms := Some ["Python"];
  Software.depends_3rdparty := None;
  Software.updated_at := Some "2020-01-01"
|}.

Definition bar : Software.t := {|
  Software.name := "Bar";
  Software.description := "A hosted wiki.";
  Software.website_url := "https://bar.example";
  Software.source_code_url := None;
  Software.related_software_url := None;
  Software.demo_url := None;
  Software.licenses := ["MIT"; "Proprietary"];
  Software.tags := ["Wikis"];
  Software.platforms := Some ["Python"];
  Software.depends_3rdparty := Some true;
  Software.updated_at := None
|}.

Definition sample_licenses : list License.t :=
  [ {| License.identifier := "MIT"; License.name := "MIT License";
       License.url := "https://opensource.org/licenses/MIT" |};
    {| License.identifier := "Proprietary"; License.name := "Proprietary";
       License.url := "https://en.wikipedia.org/wiki/Proprietary_software" |} ].

Definition sample_step (exclude_licenses : option (list string)) : Step.t := {|
  Step.source_directory := "data";
  Step.output_directory := "out";
  Step.exclude_licenses := exclude_licenses;
  Step.output_file := None
|}.

(** Noon of 2026-11-03, and every later reading one second after the
    one before. *)
Definition sample_clock (n : nat) : Z :=
  (datetime.ymd2ord 2026 11 3 * datetime.microseconds_per_day
   + 43200 * 1000000 + Z.of_nat n * 1000000)%Z.

(** The source directory [data] with its header and footer, and an
    output directory [out] that exists and is empty.  [static] tells
    whether [data/html/_static] exists. *)
Definition sample_world (static : bool) : World := {|
  fs := {| dirs := if static
                   then {[ ""; "data"; "data/markdown"; "out"; "data/html"; "data/html/_static" ]}
                   else {[ ""; "data"; "data/markdown"; "out" ]};
           files := {[ "data/markdown/header.md" := "# Sample list" +:+ nl;
                       "data/markdown/footer.md" := nl +:+ "## Contributing" +:+ nl ]};
           yaml_items := fun path =>
             if String.eqb path "data/tags" then [games; wikis]
             else if String.eqb path "data/platforms" then [python]
             else [];
           yaml_software := fun path =>
             if String.eqb path "data/software" then [foo; bar] else [];
           yaml_licenses := fun path =>
             if String.eqb path "data/licenses.yml" then sample_licenses else [];
           written := [] |};
  clock := sample_clock
|}.

(** The same disk once the directories of the pages are there. *)
Definition sample_world_with_pages : World :=
  with_fs (sample_world true)
    (os.add_dir "out/md/platforms"
       (os.add_dir "out/md/tags" (os.add_dir "out/md" (fs (sample_world true))))).

(** The same disk at midnight of 1999-12-31: every reading of the clock
    is before the dates of the records. *)
Definition sample_world_1999 : World :=
  {| fs := fs (sample_world true);
     clock := fun _ => (datetime.ymd2ord 1999 12 31 * datetime.microseconds_per_day)%Z |}.

(** A project that was last updated on the day [updated_at]. *)
Definition updated_on (updated_at : string) : Software.t := {|
  Software.name := "Baz";
  Software.description := "A game server.";
  Software.website_url := "https://baz.example";
  Software.source_code_url := None;
  Software.related_software_url := None;
  Software.demo_url := None;
  Software.licenses := ["GPL-3.0"];
  Software.tags := ["Games"];
  Software.platforms := None;
  Software.depends_3rdparty := None;
  Software.updated_at := Some updated_at
|}.

(** ** Further notions *)

(** Every character of [s] passes [p]. *)
Fixpoint all_chars (p : ascii -> bool) (s : string) : bool :=
  match s with
  | EmptyString => true
  | String c rest => p c && all_chars p rest
  end.

(** The characters that [urllib.parse.quote] leaves in its result: the
    unreserved ones, the slash and the percent sign. *)
Definition quoted_char (c : ascii) : bool :=
  urllib_parse.always_safe c || Ascii.eqb c "/" || Ascii.eqb c "%".

(** The files after the writes [log], made in order on [files]. *)
Definition replay (log : list (string * string)) (files : gmap string string)
    : gmap string string :=
  fold_left (fun files write => <[fst write := snd write]> files) log files.

(** [m] removes no directory, leaves the records alone, and changes the
    files by the writes it logs and by nothing else. *)
Definition orderly {A} (m : M A) : Prop :=
  forall w,
    dirs (fs w) ⊆ dirs (fs (snd (m w)))
    /\ yaml_items (fs (snd (m w))) = yaml_items (fs w)
    /\ yaml_software (fs (snd (m w))) = yaml_software (fs w)
    /\ yaml_licenses (fs (snd (m w))) = yaml_licenses (fs w)
    /\ exists log,
         written (fs (snd (m w))) = (written (fs w) ++ log)%list
         /\ files (fs (snd (m w))) = replay log (files (fs w)).

(** [m] leaves the file at [path] alone and makes no directory but those
    of [made]. *)
Definition confined {A} (path : string) (made : gset string) (m : M A) : Prop :=
  forall w,
    files (fs (snd (m w))) !! path = files (fs w) !! path
    /\ dirs (fs (snd (m w))) ⊆ dirs (fs w) ∪ made.

(** [software] with the key [platforms] set to [platforms]. *)
Definition with_platforms (platforms : list string) (software : Software.t) : Software.t :=
  {| Software.name := Software.name software;
     Software.description := Software.description software;
     Software.website_url := Software.website_url software;
     Software.source_code_url := Software.source_code_url software;
     Software.related_software_url := Software.related_software_url software;
     Software.demo_url := Software.demo_url software;
     Software.licenses := Software.licenses software;
     Software.tags := Software.tags software;
     Software.platforms := Some platforms;
     Software.depends_3rdparty := Software.depends_3rdparty software;
     Software.updated_at := Software.updated_at software |}.

(** What the renderer raises on a project whose date [strptime] refuses. *)
Definition unreadable_date (software : Software.t) : exn :=
  ValueError (default "" (Software.updated_at software)).

Section further_notions.
Context `{Utils}.

(** What the loop over [items] writes, page after page. *)
Definition pages_written (k : PageKind) (exclude_licenses : list string)
    (software_list : list Software.t) (items : list Item.t) : list (string * string) :=
  map (fun item =>
         (page_path k item,
          page_markdown k item (page_projects k item exclude_licenses software_list)))
    items.



End further_notions.

(** A second tag whose name differs from [wikis] by its capital only. *)
Definition wikis_lower : Item.t := {|
  Item.name := "wikis";
  Item.description := "Wiki software.";
  Item.related_tags := None;
  Item.external_links := None;
  Item.redirect := None
|}.

(** A project without the key [platforms]. *)
Definition baz : Software.t := {|
  Software.name := "Baz";
  Software.description := "A game server.";
  Software.website_url := "https://baz.example";
  Software.source_code_url := None;
  Software.related_software_url := None;
  Software.demo_url := None;
  Software.licenses := ["Proprietary"];
  Software.tags := ["Games"];
  Software.platforms := None;
  Software.depends_3rdparty := None;
  Software.updated_at := Some "soon"
|}.

(** The sample disk without its header file. *)
Definition sample_world_without_header : World :=
  with_fs (sample_world true)
    {| dirs := dirs (fs (sample_world true));
       files := delete "data/markdown/header.md" (files (fs (sample_world true)));
       yaml_items := yaml_items (fs (sample_world true));
       yaml_software := yaml_software (fs (sample_world true));
       yaml_licenses := yaml_licenses (fs (sample_world true));
       written := [] |}.

(** The sample disk with [baz] among its projects. *)
Definition sample_world_with_baz : World :=
  with_fs (sample_world true)
    {| dirs := dirs (fs (sample_world true));
       files := files (fs (sample_world true));
       yaml_items := yaml_items (fs (sample_world true));
       yaml_software := fun path =>
         if String.eqb path "data/software" then [foo; baz; bar] else [];
       yaml_licenses := yaml_licenses (fs (sample_world true));
       written := [] |}.

(** The sample disk without the output directory. *)
Definition sample_world_without_out : World :=
  with_fs (sample_world true)
    {| dirs := {[ ""; "data"; "data/markdown" ]};
       files := files (fs (sample_world true));
       yaml_items := yaml_items (fs (sample_world true));
       yaml_software := yaml_software (fs (sample_world true));
       yaml_licenses := yaml_licenses (fs (sample_world true));
       written := [] |}.

(** The sample disk with a regular file where the output directory should
    be. *)
Definition sample_world_file_at_out : World :=
  with_fs (sample_world true)
    {| dirs := {[ ""; "data"; "data/markdown" ]};
       files := <["out" := "not a directory"]> (files (fs (sample_world true)));
       yaml_items := yaml_items (fs (sample_world true));
       yaml_software := yaml_software (fs (sample_world true));
       yaml_licenses := yaml_licenses (fs (sample_world true));
       written := [] |}.

(** The disk that a run on the sample disk leaves, with the clock of
    [sample_world_1999]: the world of a second run. *)
Definition sample_world_rerun : World :=
  {| fs := fs (snd (@render_markdown_multipage sample_utils (sample_step None)
                      (sample_world true)));
     clock := clock sample_world_1999 |}.

(** Modelled from the spec: [to_kebab_case] of [hecat/utils.py] is not
    among the sources.  Section 4.1 describes the slug of a name as a
    lowercase, hyphen-separated token in which whitespace and punctuation
    collapse to single hyphens: this instance turns an ASCII capital into
    its small letter, keeps small letters and digits, and turns every run
    of other characters into one hyphen.  [after_hyphen] tells that the
    character before was such a one. *)
Fixpoint hyphenated (after_hyphen : bool) (name : string) : string :=
  match name with
  | EmptyString => ""
  | String c rest =>
      let n := nat_of_ascii c in
      if Nat.leb 65 n && Nat.leb n 90
      then String (ascii_of_nat (n + 32)) (hyphenated false rest)
      else if (Nat.leb 97 n && Nat.leb n 122) || (Nat.leb 48 n && Nat.leb n 57)
      then String c (hyphenated false rest)
      else if after_hyphen then hyphenated true rest
      else String "-" (hyphenated true rest)
  end.

(** The helpers with the slug of section 4.1. *)
Definition hyphenating_utils : Utils := {|
  to_kebab_case := hyphenated true;
  render_markdown_licenses := sample_render_markdown_licenses
|}.

(** * Properties *)

(** ** Strings and lists *)

Lemma append_cons (x : ascii) (a b : string) : String x a +:+ b = String x (a +:+ b).
Proof. reflexivity. Qed.

Lemma append_nil_l (a : string) : "" +:+ a = a.
Proof. reflexivity. Qed.

Lemma append_assoc (a b c : string) : (a +:+ b) +:+ c = a +:+ (b +:+ c).
Proof.
  induction a as [|x a IH]; [reflexivity|].
  now rewrite !append_cons, IH.
Qed.

Lemma append_nil_r (a : string) : a +:+ "" = a.
Proof.
  induction a as [|x a IH]; [reflexivity|].
  now rewrite append_cons, IH.
Qed.

(** A loop that appends one text per element builds the texts in order. *)
Lemma fold_left_append {A} (f : A -> string) (l : list A) (acc : string) :
  fold_left (fun acc x => acc +:+ f x) l acc = acc +:+ join (map f l).
Proof.
  revert acc. induction l as [|x l IH]; intros acc; cbn [fold_left map join].
  - now rewrite append_nil_r.
  - now rewrite IH, append_assoc.
Qed.

(** A loop that appends one element per element is [map]. *)
Lemma fold_left_snoc {A B} (f : A -> B) (l : list A) (acc : list B) :
  fold_left (fun acc x => (acc ++ [f x])%list) l acc = (acc ++ map f l)%list.
Proof.
  revert acc. induction l as [|x l IH]; intros acc; simpl.
  - now rewrite app_nil_r.
  - rewrite IH, <- app_assoc. reflexivity.
Qed.


Lemma has_part_append_r (part a b : string) : has_part part b -> has_part part (a +:+ b).
Proof.
  intros (before & after & ->). exists (a +:+ before), after. now rewrite append_assoc.
Qed.

Lemma has_part_append_l (part a b : string) : has_part part a -> has_part part (a +:+ b).
Proof.
  intros (before & after & ->). exists before, (after +:+ b). now rewrite !append_assoc.
Qed.




Lemma append_nonempty (a b : string) : b <> "" -> a +:+ b <> "".
Proof. destruct a; [now rewrite append_nil_l | now rewrite append_cons]. Qed.

(** ** The monad *)

Lemma bind_ok {A B} (m : M A) (k : A -> M B) (w w' : World) (a : A) :
  m w = (Ok a, w') -> bind m k w = k a w'.
Proof. unfold bind. now intros ->. Qed.

Lemma bind_raise {A B} (m : M A) (k : A -> M B) (w w' : World) (e : exn) :
  m w = (Raise e, w') -> bind m k w = (Raise e, w').
Proof. unfold bind. now intros ->. Qed.

Lemma bind_ok_inv {A B} (m : M A) (k : A -> M B) (w w' : World) (b : B) :
  bind m k w = (Ok b, w') -> exists a w1, m w = (Ok a, w1) /\ k a w1 = (Ok b, w').
Proof.
  unfold bind. destruct (m w) as [[a|e] w1]; [|discriminate].
  intros Hk. now exists a, w1.
Qed.

(** A loop whose body either leaves the text alone or appends [f x] to it,
    and keeps the disk as it is, builds the texts of the selected elements
    in order. *)
Lemma for_acc_select {A} (sel good : A -> bool) (f : A -> string)
    (body : string -> A -> M string) (l : list A) :
  (forall acc x w, sel x = false -> body acc x w = (Ok acc, w)) ->
  (forall acc x w, sel x = true -> good x = true ->
     exists w', body acc x w = (Ok (acc +:+ f x), w') /\ fs w' = fs w) ->
  forallb good (List.filter sel l) = true ->
  forall acc w, exists w',
    for_acc body acc l w = (Ok (acc +:+ join (map f (List.filter sel l))), w')
    /\ fs w' = fs w.
Proof.
  intros Hskip Htake. induction l as [|x l IH]; intros Hgood acc w.
  - exists w. cbn. now rewrite append_nil_r.
  - cbn [for_acc List.filter] in *. destruct (sel x) eqn:Hsel.
    + cbn [forallb] in Hgood. apply andb_true_iff in Hgood as [Hx Hl].
      destruct (Htake acc x w Hsel Hx) as (w1 & Hbody & Hfs1).
      destruct (IH Hl (acc +:+ f x) w1) as (w2 & Hrest & Hfs2).
      exists w2. rewrite (bind_ok _ _ _ _ _ Hbody), Hrest.
      cbn [map join]. rewrite append_assoc. split; [reflexivity | congruence].
    + destruct (IH Hgood acc w) as (w2 & Hrest & Hfs2).
      exists w2. rewrite (bind_ok _ _ _ _ _ (Hskip acc x w Hsel)). now split.
Qed.

(** ** Paths *)

Lemma rstrip_slash_append (s t : string) :
  os.rstrip_slash t <> "" -> os.rstrip_slash (s +:+ t) = s +:+ os.rstrip_slash t.
Proof.
  intros Ht. induction s as [|c s IH]; [reflexivity|].
  rewrite !append_cons. cbn [os.rstrip_slash]. rewrite IH.
  destruct (s +:+ os.rstrip_slash t) eqn:E; [|reflexivity].
  now apply append_nonempty in E.
Qed.

Lemma rstrip_slash_slashless (f : string) :
  slashless f = true -> os.rstrip_slash f = f.
Proof.
  induction f as [|c f IH]; [reflexivity|].
  cbn [slashless os.rstrip_slash]. intros [Hc Hf]%andb_true_iff.
  rewrite (IH Hf). apply negb_true_iff in Hc. rewrite Hc. now destruct f.
Qed.

Lemma split_last_slashless (f : string) :
  slashless f = true -> os.split_last f = None.
Proof.
  induction f as [|c f IH]; [reflexivity|].
  cbn [slashless os.split_last]. intros [Hc Hf]%andb_true_iff.
  rewrite (IH Hf). apply negb_true_iff in Hc. now rewrite Hc.
Qed.

Lemma split_last_append (d f : string) :
  slashless f = true -> os.split_last (d +:+ "/" +:+ f) = Some (d, f).
Proof.
  intros Hf. induction d as [|c d IH].
  - rewrite append_nil_l. change ("/" +:+ f) with (String "/" f).
    cbn [os.split_last]. now rewrite (split_last_slashless f Hf).
  - rewrite append_cons. cbn [os.split_last]. now rewrite IH.
Qed.

(** An entry with a plain, non-empty name [f] in the directory [d]. *)
Lemma rstrip_slash_entry (d f : string) :
  slashless f = true -> f <> "" -> os.rstrip_slash (d +:+ "/" +:+ f) = d +:+ "/" +:+ f.
Proof.
  intros Hf Hne.
  assert (Hr : os.rstrip_slash ("/" +:+ f) = "/" +:+ f).
  { change ("/" +:+ f) with (String "/" f). cbn [os.rstrip_slash].
    rewrite (rstrip_slash_slashless f Hf). now destruct f. }
  rewrite rstrip_slash_append; rewrite Hr; [reflexivity|].
  change ("/" +:+ f) with (String "/" f). discriminate.
Qed.


(** The same entry, named with a slash at its end. *)
Lemma rstrip_slash_entry_slash (d f : string) :
  slashless f = true -> f <> "" ->
  os.rstrip_slash (d +:+ "/" +:+ f +:+ "/") = d +:+ "/" +:+ f.
Proof.
  intros Hf Hne.
  assert (Hr : os.rstrip_slash (f +:+ "/") = f).
  { clear Hne. induction f as [|c f IH]; [reflexivity|].
    cbn [slashless] in Hf. apply andb_true_iff in Hf as [Hc Hf].
    rewrite append_cons. cbn [os.rstrip_slash]. rewrite (IH Hf).
    apply negb_true_iff in Hc. rewrite Hc. now destruct f. }
  rewrite <- (append_assoc d "/" (f +:+ "/")).
  rewrite (rstrip_slash_append (d +:+ "/") (f +:+ "/")); rewrite Hr; [|assumption].
  apply append_assoc.
Qed.

Lemma dirname_entry_slash (d f : string) :
  slashless f = true -> f <> "" ->
  os.dirname (d +:+ "/" +:+ f +:+ "/") = os.rstrip_slash d.
Proof.
  intros Hf Hne. unfold os.dirname.
  now rewrite (rstrip_slash_entry_slash d f Hf Hne), (split_last_append d f Hf).
Qed.

(** [open(path, 'w+')] writes exactly when [can_write] says so, and leaves
    the world alone otherwise. *)
Lemma open_write_cases (path text : string) (w : World) :
  (os.can_write (fs w) path = true
   /\ os.open_write path text w = (Ok tt, with_fs w (os.write_file path text (fs w))))
  \/ (os.can_write (fs w) path = false
      /\ exists e, os.open_write path text w = (Raise e, w)).
Proof.
  unfold os.open_write, os.can_write, os.names_dir.
  destruct (os.parent_isdir (fs w) path), (os.isdir (fs w) path),
    (String.eqb (os.rstrip_slash path) path); cbn; eauto.
Qed.

(** The two cases of a call [open(path, 'w+')] whose outcome is [H]. *)
Ltac open_write_in H :=
  match type of H with
  | os.open_write ?path ?text ?w0 = _ =>
      let E := fresh "E" in
      destruct (open_write_cases path text w0) as [[? E]|[? [? E]]];
      rewrite E in H; clear E
  end.

Lemma mkdir_cases (path : string) (w : World) :
  os.mkdir path w = (Ok tt, with_fs w (os.add_dir path (fs w)))
  \/ exists e, os.mkdir path w = (Raise e, w).
Proof.
  unfold os.mkdir.
  destruct (_ || _); [eauto|]. destruct (os.parent_isdir _ _); eauto.
Qed.

Section properties.
Context `{Utils}.

(** ** The record renderer *)

Lemma dicts_list_map (relative_url : string) (labels : list string) :
  dicts_list relative_url labels
  = map (fun label =>
           {| Badge.name := label;
              Badge.href := relative_url +:+ urllib_parse.quote (to_kebab_case label)
                            +:+ ".html" |}) labels.
Proof. unfold dicts_list. now rewrite fold_left_snoc. Qed.

(** The template does not read the class it is handed. *)
Lemma SOFTWARE_JINJA_MARKDOWN_class (software : Software.t) (tags platforms : list Badge.t)
    (c1 c2 licenses_relative_url : string) :
  SOFTWARE_JINJA_MARKDOWN software tags platforms c1 licenses_relative_url
  = SOFTWARE_JINJA_MARKDOWN software tags platforms c2 licenses_relative_url.
Proof. reflexivity. Qed.

Lemma date_css_class_of_ok (software : Software.t) (w : World) :
  well_dated software = true ->
  exists c w', date_css_class_of software w = (Ok c, w') /\ fs w' = fs w.
Proof.
  unfold well_dated, date_css_class_of.
  destruct (Software.updated_at software) as [d|]; [|intros _; now exists "updated-at", w].
  intros Hd. apply bool_decide_eq_true in Hd as [t Ht]. rewrite Ht.
  unfold bind, ret, datetime_now; cbn.
  destruct (t <? clock w 0 - datetime.timedelta 365)%Z; cbn; [now eauto|].
  destruct (t <? clock w 1 - datetime.timedelta 186)%Z; cbn; now eauto.
Qed.

Lemma date_css_class_of_raise (software : Software.t) (w : World) :
  well_dated software = false ->
  exists d, Software.updated_at software = Some d
            /\ date_css_class_of software w = (Raise (ValueError d), w).
Proof.
  unfold well_dated, date_css_class_of.
  destruct (Software.updated_at software) as [d|]; [|discriminate].
  intros Hd. exists d. split; [reflexivity|].
  destruct (datetime.strptime_ymd d) eqn:E; [|reflexivity].
  apply bool_decide_eq_false in Hd. destruct Hd. now eexists.
Qed.

Lemma render_markdown_software_ok (software : Software.t) (a b c : string) (w : World) :
  well_dated software = true ->
  exists w', render_markdown_software software a b c w = (Ok (fragment a b c software), w')
             /\ fs w' = fs w.
Proof.
  intros Hd. destruct (date_css_class_of_ok software w Hd) as (cls & w' & Hc & Hfs).
  exists w'. unfold render_markdown_software. rewrite (bind_ok _ _ _ _ _ Hc).
  split; [reflexivity | assumption].
Qed.

Lemma render_markdown_software_raise (software : Software.t) (a b c : string) (w : World) :
  well_dated software = false ->
  exists d, Software.updated_at software = Some d
            /\ render_markdown_software software a b c w = (Raise (ValueError d), w).
Proof.
  intros Hd. destruct (date_css_class_of_raise software w Hd) as (d & Hu & Hc).
  exists d. split; [assumption|].
  unfold render_markdown_software. now rewrite (bind_raise _ _ _ _ _ Hc).
Qed.

(** ** The two loops over the projects *)

Lemma index_software_list_ok (step : Step.t) (exclude_licenses : list string)
    (software_list : list Software.t) (w : World) :
  Step.exclude_licenses step = Some exclude_licenses ->
  forallb well_dated (index_projects exclude_licenses software_list) = true ->
  exists w',
    index_software_list step software_list w
    = (Ok (join (map (fragment "tags/" "platforms/" "#list-of-licenses")
                   (index_projects exclude_licenses software_list))), w')
    /\ fs w' = fs w.
Proof.
  intros He Hd. unfold index_software_list, index_projects in *.
  eapply (for_acc_select _ well_dated) with (acc := ""); [| |exact Hd].
  - intros acc x w0 Hx. unfold exclude_licenses_of. rewrite He.
    apply negb_false_iff in Hx. cbn. now rewrite Hx.
  - intros acc x w0 Hx Hg. unfold exclude_licenses_of. rewrite He.
    apply negb_true_iff in Hx. cbn. rewrite Hx.
    destruct (render_markdown_software_ok x "tags/" "platforms/" "#list-of-licenses" w0 Hg)
      as (w1 & Hr & Hfs).
    exists w1. now rewrite (bind_ok _ _ _ _ _ Hr).
Qed.

Lemma item_page_software_list_ok (step : Step.t) (k : PageKind) (item : Item.t)
    (exclude_licenses : list string) (software_list : list Software.t) (w : World) :
  Step.exclude_licenses step = Some exclude_licenses ->
  forallb well_dated (page_projects k item exclude_licenses software_list) = true ->
  exists w',
    item_page_software_list step k item software_list w
    = (Ok (join (map (page_fragment k)
                   (page_projects k item exclude_licenses software_list))), w')
    /\ fs w' = fs w.
Proof.
  intros He Hd. unfold item_page_software_list, page_projects in *.
  eapply (for_acc_select _ well_dated) with (acc := ""); [| |exact Hd].
  - intros acc x w0 Hx. unfold exclude_licenses_of. rewrite He. cbn.
    destruct (any_license_excluded x exclude_licenses); [reflexivity|].
    cbn in Hx. now rewrite Hx.
  - intros acc x w0 Hx Hg. unfold exclude_licenses_of. rewrite He. cbn.
    apply andb_true_iff in Hx as [Hx Hm]. apply negb_true_iff in Hx. rewrite Hx, Hm.
    destruct (render_markdown_software_ok x (tags_relative_url k) (platforms_relative_url k)
                "../index.html#list-of-licenses" w0 Hg) as (w1 & Hr & Hfs).
    exists w1. now rewrite (bind_ok _ _ _ _ _ Hr).
Qed.

(** ** The page of a tag or of a platform *)

Lemma open_write_ok (path text : string) (w : World) :
  os.can_write (fs w) path = true ->
  os.open_write path text w = (Ok tt, with_fs w (os.write_file path text (fs w))).
Proof.
  unfold os.can_write, os.open_write. intros [Hn Hp]%andb_true_iff.
  apply negb_true_iff in Hn. now rewrite Hn, Hp.
Qed.

Lemma fragment_cons (a b c : string) (software : Software.t) :
  exists rest, fragment a b c software = String "010" rest.
Proof. unfold fragment, SOFTWARE_JINJA_MARKDOWN, nl. rewrite append_cons. now eexists. Qed.

(** The test [if markdown_software_list:] tells whether a project is shown. *)
Lemma page_markdown_join (k : PageKind) (item : Item.t) (projects : list Software.t) :
  match join (map (page_fragment k) projects) with
  | String _ _ =>
      markdown_fieldlist k +:+ header_template k item +:+ content_header k
      +:+ join (map (page_fragment k) projects)
  | EmptyString => header_template k item
  end = page_markdown k item projects.
Proof.
  destruct projects as [|x l]; [reflexivity|].
  cbn [map join page_markdown]. unfold page_fragment at 1.
  destruct (fragment_cons (tags_relative_url k) (platforms_relative_url k)
              "../index.html#list-of-licenses" x) as [rest ->].
  now rewrite append_cons.
Qed.

Lemma page_kind_cases (step : Step.t) (item_type : string) (k : PageKind) (w w' : World) :
  page_kind step item_type w = (Ok k, w') ->
  w' = w /\ ((item_type = "tag" /\ k = tag_page step)
             \/ (item_type = "platform" /\ k = platform_page step)).
Proof.
  unfold page_kind.
  destruct (String.eqb_spec item_type "tag") as [->|_].
  - intros [= <- <-]. auto.
  - destruct (String.eqb_spec item_type "platform") as [->|_]; [|discriminate].
    intros [= <- <-]. auto.
Qed.

Lemma render_item_page_ok (step : Step.t) (item_type : string) (k : PageKind) (item : Item.t)
    (exclude_licenses : list string) (software_list : list Software.t) (w : World) :
  page_kind step item_type w = (Ok k, w) ->
  Step.exclude_licenses step = Some exclude_licenses ->
  forallb well_dated (page_projects k item exclude_licenses software_list) = true ->
  os.can_write (fs w) (page_path k item) = true ->
  exists w',
    render_item_page step item_type item software_list w = (Ok tt, w')
    /\ fs w' = os.write_file (page_path k item)
                 (page_markdown k item (page_projects k item exclude_licenses software_list))
                 (fs w).
Proof.
  intros Hk He Hd Hw. unfold render_item_page.
  rewrite (bind_ok _ _ _ _ _ Hk).
  destruct (item_page_software_list_ok step k item exclude_licenses software_list w He Hd)
    as (w1 & Hl & Hfs).
  rewrite (bind_ok _ _ _ _ _ Hl), page_markdown_join.
  fold (page_path k item). rewrite <- Hfs in Hw.
  rewrite (open_write_ok _ _ _ Hw). eexists. split; [reflexivity|]. cbn. now rewrite Hfs.
Qed.

Lemma render_item_page_invalid (step : Step.t) (item_type : string) (item : Item.t)
    (software_list : list Software.t) (w : World) :
  item_type <> "tag" -> item_type <> "platform" ->
  render_item_page step item_type item software_list w = (Raise (SystemExit 1), w).
Proof.
  intros Ht Hp. unfold render_item_page, page_kind.
  apply String.eqb_neq in Ht, Hp. now rewrite Ht, Hp.
Qed.

(** ** What a computation does to the log of writes *)














(** ** The directories of the output *)






(** ** The pipeline up to the index *)

Lemma open_read_ok (path text : string) (w : World) :
  files (fs w) !! path = Some text -> os.open_read path w = (Ok text, w).
Proof. unfold os.open_read. now intros ->. Qed.

Lemma bind_load_yaml_items {B} (path : string) (k : list Item.t -> M B) (w : World) :
  bind (load_yaml_items path) k w = k (yaml_items (fs w) path) w.
Proof. reflexivity. Qed.

Lemma bind_load_yaml_software {B} (path : string) (k : list Software.t -> M B) (w : World) :
  bind (load_yaml_software path) k w = k (yaml_software (fs w) path) w.
Proof. reflexivity. Qed.

Lemma bind_load_yaml_licenses {B} (path : string) (k : list License.t -> M B) (w : World) :
  bind (load_yaml_licenses path) k w = k (yaml_licenses (fs w) path) w.
Proof. reflexivity. Qed.

Lemma exclude_licenses_with_defaults (step : Step.t) :
  Step.exclude_licenses (with_defaults step) = Some (default [] (Step.exclude_licenses step)).
Proof. unfold with_defaults. cbn. now destruct (Step.exclude_licenses step). Qed.

Lemma output_file_with_defaults (step : Step.t) (w : World) :
  output_file_of (with_defaults step) w = (Ok (output_file_name_of step), w).
Proof.
  unfold output_file_of, with_defaults, output_file_name_of. cbn.
  now destruct (Step.output_file step).
Qed.


(** ** Beyond the claims *)

(** The class of the age badge: [redbox] for a date whose midnight is
    before the first reading of the clock minus 365 days, else [orangebox]
    when it is before the second reading minus 186 days, else [updated-at].
    Both comparisons are strict. *)
Theorem date_css_class_of_thresholds (software : Software.t) (updated_at : string)
    (last_update_time : datetime.t) (w : World) :
  Software.updated_at software = Some updated_at ->
  datetime.strptime_ymd updated_at = Some last_update_time ->
  fst (date_css_class_of software w)
  = Ok (if (last_update_time <? clock w 0 - 365 * 86400000000)%Z then "redbox"
        else if (last_update_time <? clock w 1 - 186 * 86400000000)%Z then "orangebox"
        else "updated-at").
Proof.
  intros Hu Ht. unfold date_css_class_of. rewrite Hu, Ht.
  unfold bind, ret, datetime_now. cbn.
  change (datetime.timedelta 365) with (365 * 86400000000)%Z.
  change (datetime.timedelta 186) with (186 * 86400000000)%Z.
  destruct (last_update_time <? clock w 0 - 365 * 86400000000)%Z; cbn; [reflexivity|].
  now destruct (last_update_time <? clock w 1 - 186 * 86400000000)%Z.
Qed.

(** The date of a project leaves no trace in its fragment: when
    [updated_at] is absent or a date that [strptime] reads, the renderer
    returns the very text it returns for the project without that key,
    whatever the clocks of the two calls read; on a date that [strptime]
    refuses it raises [ValueError] and the world is as it was. *)
Theorem fragment_forgets_updated_at (software : Software.t) (a b c : string) (w w' : World) :
  (forall updated_at,
     Software.updated_at software = Some updated_at ->
     datetime.strptime_ymd updated_at = None ->
     render_markdown_software software a b c w = (Raise (ValueError updated_at), w))
  /\ ((forall updated_at,
         Software.updated_at software = Some updated_at ->
         is_Some (datetime.strptime_ymd updated_at)) ->
      exists text,
        fst (render_markdown_software software a b c w) = Ok text
        /\ fst (render_markdown_software (without_updated_at software) a b c w') = Ok text).
Proof.
  split.
  - intros updated_at Hu Hs.
    assert (Hd : well_dated software = false).
    { unfold well_dated. rewrite Hu, Hs. apply bool_decide_eq_false. now intros [t Ht]. }
    destruct (render_markdown_software_raise software a b c w Hd) as (d & Hu' & ->).
    congruence.
  - intros Hs.
    assert (Hd : well_dated software = true).
    { unfold well_dated. destruct (Software.updated_at software) as [d|]; [|reflexivity].
      apply bool_decide_eq_true. now apply Hs. }
    destruct (render_markdown_software_ok software a b c w Hd) as (w1 & -> & _).
    destruct (render_markdown_software_ok (without_updated_at software) a b c w' eq_refl)
      as (w2 & -> & _).
    now exists (fragment a b c software).
Qed.

(** A run that ends without an exception has written the stylesheet last,
    to [html/_static/custom.css] under the source directory. *)
Theorem stylesheet_is_the_last_write (step : Step.t) (w : World) :
  fst (render_markdown_multipage step w) = Ok tt ->
  exists before,
    written (fs (snd (render_markdown_multipage step w)))
    = (before ++ [(Step.source_directory step +:+ "/html/_static/custom.css",
                   MARKDOWN_CSS)])%list
    /\ files (fs (snd (render_markdown_multipage step w)))
         !! (Step.source_directory step +:+ "/html/_static/custom.css")
       = Some MARKDOWN_CSS.
Proof.
  destruct (render_markdown_multipage step w) as [r w'] eqn:Hrun. cbn [fst snd].
  intros ->. unfold render_markdown_multipage in Hrun. cbv zeta in Hrun.
  change (Step.source_directory (with_defaults step)) with (Step.source_directory step)
    in Hrun.
  do 13 (apply bind_ok_inv in Hrun as (? & ? & _ & Hrun)).
  open_write_in Hrun; [|discriminate].
  injection Hrun as <-. eexists. cbn. split; [reflexivity|]. apply lookup_insert_eq.
Qed.

(** ** The claims *)

Lemma any_license_excluded_spec (software : Software.t) (exclude_licenses : list string) :
  any_license_excluded software exclude_licenses = true
  <-> exists license, In license exclude_licenses
                      /\ In license (Software.licenses software).
Proof.
  unfold any_license_excluded. rewrite existsb_exists.
  split; intros (license & Hin & Hl); exists license; split; try assumption.
  - apply list_elem_of_In. now apply bool_decide_eq_true in Hl.
  - apply bool_decide_eq_true. now apply list_elem_of_In.
Qed.

Lemma page_projects_index_projects (k : PageKind) (item : Item.t)
    (exclude_licenses : list string) (software_list : list Software.t) :
  page_projects k item exclude_licenses software_list
  = List.filter (matches k item) (index_projects exclude_licenses software_list).
Proof.
  unfold page_projects, index_projects.
  induction software_list as [|x l IH]; [reflexivity|]. cbn [List.filter].
  destruct (any_license_excluded x exclude_licenses); cbn [negb andb]; [exact IH|].
  cbn [List.filter]. destruct (matches k item x); now rewrite IH.
Qed.

Lemma forallb_filter {A} (p sel : A -> bool) (l : list A) :
  forallb p l = true -> forallb p (List.filter sel l) = true.
Proof.
  rewrite !forallb_forall. intros Hp x [Hx _]%filter_In. auto.
Qed.

(** C3 (as amended): with a configured exclusion list, a project is shown
    on the index if and only if none of its license identifiers is equal to
    a member of [exclude_licenses], and on the page of a tag or platform if
    and only if, besides, the name of the label is among its tags or
    platforms.  Both loops build their text from exactly these projects, in
    input order, with the same test [any_license_excluded] on the same
    list. *)
Theorem exclusion_by_license (step : Step.t) (exclude_licenses : list string)
    (software_list : list Software.t) (w : World) :
  Step.exclude_licenses step = Some exclude_licenses ->
  forallb well_dated (index_projects exclude_licenses software_list) = true ->
  (exists w',
      index_software_list step software_list w
      = (Ok (join (map (fragment "tags/" "platforms/" "#list-of-licenses")
                     (index_projects exclude_licenses software_list))), w'))
  /\ (forall k item, exists w',
        item_page_software_list step k item software_list w
        = (Ok (join (map (page_fragment k)
                       (page_projects k item exclude_licenses software_list))), w'))
  /\ (forall software,
        In software (index_projects exclude_licenses software_list)
        <-> In software software_list
            /\ ~ exists license, In license exclude_licenses
                                 /\ In license (Software.licenses software))
  /\ (forall k item software,
        In software (page_projects k item exclude_licenses software_list)
        <-> In software software_list
            /\ (~ exists license, In license exclude_licenses
                                  /\ In license (Software.licenses software))
            /\ matches k item software = true).
Proof.
  intros He Hd.
  assert (Hx : forall software,
    negb (any_license_excluded software exclude_licenses) = true
    <-> ~ exists license, In license exclude_licenses
                          /\ In license (Software.licenses software)).
  { intros software. rewrite <- any_license_excluded_spec, negb_true_iff.
    now destruct (any_license_excluded software exclude_licenses). }
  split; [|split; [|split]].
  - destruct (index_software_list_ok step exclude_licenses software_list w He Hd)
      as (w' & Hl & _). now exists w'.
  - intros k item.
    destruct (item_page_software_list_ok step k item exclude_licenses software_list w He)
      as (w' & Hl & _); [|now exists w'].
    rewrite page_projects_index_projects. now apply forallb_filter.
  - intros software. unfold index_projects. now rewrite filter_In, Hx.
  - intros k item software. unfold page_projects.
    now rewrite filter_In, andb_true_iff, Hx.
Qed.

(** C4 (as amended): for a tag or a platform, with a configured exclusion
    list, shown projects whose dates [strptime] reads and a page path that can
    be written, the renderer returns without an exception and writes exactly
    one file, the page of the label, over whatever was there.  When no
    project is shown the file is the header block alone; otherwise it is the
    field list of the kind (empty for a tag, [:orphan:] and [:nosearch:] for
    a platform), the header block, the content header and the fragments of
    the shown projects in input order. *)
Theorem collection_page_written (step : Step.t) (item_type : string) (k : PageKind)
    (item : Item.t) (exclude_licenses : list string) (software_list : list Software.t)
    (w : World) :
  page_kind step item_type w = (Ok k, w) ->
  Step.exclude_licenses step = Some exclude_licenses ->
  forallb well_dated (page_projects k item exclude_licenses software_list) = true ->
  os.can_write (fs w) (page_path k item) = true ->
  let projects := page_projects k item exclude_licenses software_list in
  let markdown_page :=
    match projects with
    | [] => header_template k item
    | _ :: _ =>
        markdown_fieldlist k +:+ header_template k item +:+ content_header k
        +:+ join (map (page_fragment k) projects)
    end in
  ((item_type = "tag" /\ markdown_fieldlist k = "")
   \/ (item_type = "platform" /\ markdown_fieldlist k = ":orphan:" +:+ nl +:+ ":nosearch:" +:+ nl))
  /\ exists w',
       render_item_page step item_type item software_list w = (Ok tt, w')
       /\ written (fs w') = (written (fs w) ++ [(page_path k item, markdown_page)])%list
       /\ files (fs w') = <[page_path k item := markdown_page]> (files (fs w))
       /\ dirs (fs w') = dirs (fs w).
Proof.
  intros Hk He Hd Hw projects markdown_page. split.
  - destruct (page_kind_cases _ _ _ _ _ Hk) as [_ [[-> ->]|[-> ->]]]; auto.
  - destruct (render_item_page_ok step item_type k item exclude_licenses software_list w
                Hk He Hd Hw) as (w' & Hr & Hfs).
    exists w'. rewrite Hfs. now repeat split.
Qed.


(** C8: asked for a page of a kind that is neither ["tag"] nor
    ["platform"], the renderer leaves with [sys.exit(1)], and the world is
    as it was: no file was written. *)
Theorem invalid_kind_exits (step : Step.t) (item_type : string) (item : Item.t)
    (software_list : list Software.t) (w : World) :
  item_type <> "tag" -> item_type <> "platform" ->
  render_item_page step item_type item software_list w = (Raise (SystemExit 1), w).
Proof. apply render_item_page_invalid. Qed.


End properties.

(** ** The claims on the sample source directory *)

Section examples.
#[local] Existing Instance sample_utils.

(** The class of the age badge is computed as the thresholds say: seen from
    noon of 2026-11-03, a date 365 days back is [redbox], 364 and 186 days
    back [orangebox], 185 days back and today [updated-at]; a text that is
    no date raises [ValueError]. *)
Example date_css_class_thresholds :
  map (fun updated_at => fst (date_css_class_of (updated_on updated_at) (sample_world true)))
    ["2025-11-03"; "2025-11-04"; "2026-05-01"; "2026-05-02"; "2026-11-03"; "soon"]
  = [Ok "redbox"; Ok "orangebox"; Ok "orangebox"; Ok "updated-at"; Ok "updated-at";
     Raise (ValueError "soon")].
Proof. vm_compute. reflexivity. Qed.

(** C1: [foo] was last updated on 2020-01-01, more than 365 days before
    the clock of the sample world.  The renderer computes the class
    [redbox] for it, and the fragment it returns holds neither that class
    nor the date: the age badge is missing.  The fragment is the one
    rendered with the default class. *)
Theorem age_badge_missing :
  Software.updated_at foo = Some "2020-01-01"
  /\ fst (date_css_class_of foo (sample_world true)) = Ok "redbox"
  /\ fst (render_markdown_software foo "tags/" "platforms/" "#list-of-licenses"
            (sample_world true))
     = Ok (fragment "tags/" "platforms/" "#list-of-licenses" foo)
  /\ contains "redbox" (fragment "tags/" "platforms/" "#list-of-licenses" foo) = false
  /\ contains "2020-01-01" (fragment "tags/" "platforms/" "#list-of-licenses" foo) = false
  /\ fragment "tags/" "platforms/" "#list-of-licenses" foo
     = SOFTWARE_JINJA_MARKDOWN foo
         [{| Badge.name := "Wikis"; Badge.href := "tags/wikis.html" |}]
         [{| Badge.name := "Python"; Badge.href := "platforms/python.html" |}]
         "redbox" "#list-of-licenses".
Proof. repeat split; vm_compute; reflexivity. Qed.

(** C2: the run on the sample world, whose output directory is [out]
    and whose source directory is [data].  It makes the directory
    [out/_static] and then writes the stylesheet to
    [data/html/_static/custom.css], under the source directory: nothing is
    written to [out/_static], and no file under [out] holds the stylesheet.
    When [data/html/_static] is not there, the run ends with
    [FileNotFoundError] after the pages were written. *)
Theorem stylesheet_written_under_source_directory :
  let ran := snd (render_markdown_multipage (sample_step None) (sample_world true)) in
  let failed := render_markdown_multipage (sample_step None) (sample_world false) in
  fst (render_markdown_multipage (sample_step None) (sample_world true)) = Ok tt
  /\ os.isdir (fs ran) "out/_static" = true
  /\ files (fs ran) !! "out/_static/custom.css" = None
  /\ files (fs ran) !! "data/html/_static/custom.css" = Some MARKDOWN_CSS
  /\ map fst (written (fs ran))
     = ["out/md/index.md"; "out/md/tags/games.md"; "out/md/tags/wikis.md";
        "out/md/platforms/python.md"; "data/html/_static/custom.css"]
  /\ fst failed = Raise (FileNotFoundError "data/html/_static/custom.css")
  /\ map fst (written (fs (snd failed)))
     = ["out/md/index.md"; "out/md/tags/games.md"; "out/md/tags/wikis.md";
        "out/md/platforms/python.md"].
Proof. cbv zeta. repeat split; vm_compute; reflexivity. Qed.

(** C3, the claim as stated fails: no license of [foo] is excluded, [foo]
    is on the index, and the page of the tag [games] leaves it out, being
    the header block of [games] alone. *)
Lemma exclusion_by_license_counterexample :
  let ran := snd (render_markdown_multipage (sample_step None) (sample_world true)) in
  any_license_excluded foo [] = false
  /\ index_projects [] [foo; bar] = [foo; bar]
  /\ files (fs ran) !! "out/md/tags/games.md" = Some (TAG_HEADER_JINJA_MARKDOWN games)
  /\ page_projects (tag_page (sample_step None)) games [] [foo; bar] = []
  /\ contains (Software.name foo) (TAG_HEADER_JINJA_MARKDOWN games) = false.
Proof. cbv zeta. repeat split; vm_compute; reflexivity. Qed.

(** The example of the claim: [bar] has the licenses MIT and Proprietary. *)
Example exclusion_example :
  any_license_excluded bar ["Proprietary"] = true
  /\ any_license_excluded bar ["GPL-3.0"] = false
  /\ index_projects ["Proprietary"] [foo; bar] = [foo]
  /\ page_projects (tag_page (sample_step None)) wikis ["Proprietary"] [foo; bar] = [foo]
  /\ page_projects (platform_page (sample_step None)) python ["Proprietary"] [foo; bar] = [foo]
  /\ page_projects (tag_page (sample_step None)) wikis ["GPL-3.0"] [foo; bar] = [foo; bar].
Proof. repeat split; vm_compute; reflexivity. Qed.

Lemma exclusion_by_license_witness :
  Step.exclude_licenses (sample_step (Some ["Proprietary"])) = Some ["Proprietary"]
  /\ forallb well_dated (index_projects ["Proprietary"] [foo; bar]) = true
  /\ exists w',
       index_software_list (sample_step (Some ["Proprietary"])) [foo; bar] (sample_world true)
       = (Ok (join (map (fragment "tags/" "platforms/" "#list-of-licenses")
                      (index_projects ["Proprietary"] [foo; bar]))), w').
Proof.
  split; [reflexivity|]. split; [vm_compute; reflexivity|].
  apply (exclusion_by_license (sample_step (Some ["Proprietary"])) ["Proprietary"]
           [foo; bar] (sample_world true)); [reflexivity | vm_compute; reflexivity].
Defined.

(** C4, the claim as stated fails: the page of the platform [python], on
    which [foo] and [bar] are shown, is not the header block followed by
    the content header and the fragments: it starts with the field list
    [:orphan:], [:nosearch:]. *)
Lemma collection_page_counterexample :
  let ran := snd (render_markdown_multipage (sample_step None) (sample_world true)) in
  let k := platform_page (sample_step None) in
  page_projects k python [] [foo; bar] = [foo; bar]
  /\ files (fs ran) !! "out/md/platforms/python.md"
     = Some (":orphan:" +:+ nl +:+ ":nosearch:" +:+ nl
             +:+ PLATFORM_HEADER_JINJA_MARKDOWN python
             +:+ MARKDOWN_PLATFORMPAGE_CONTENT_HEADER
             +:+ page_fragment k foo +:+ page_fragment k bar)
  /\ files (fs ran) !! "out/md/platforms/python.md"
     <> Some (PLATFORM_HEADER_JINJA_MARKDOWN python
              +:+ MARKDOWN_PLATFORMPAGE_CONTENT_HEADER
              +:+ page_fragment k foo +:+ page_fragment k bar).
Proof.
  cbv zeta. split; [vm_compute; reflexivity|]. split; [vm_compute; reflexivity|].
  vm_compute. discriminate.
Qed.

Lemma collection_page_witness :
  let k := platform_page (sample_step (Some [])) in
  page_kind (sample_step (Some [])) "platform" sample_world_with_pages
  = (Ok k, sample_world_with_pages)
  /\ os.can_write (fs sample_world_with_pages) (page_path k python) = true
  /\ exists w',
       render_item_page (sample_step (Some [])) "platform" python [foo; bar]
         sample_world_with_pages = (Ok tt, w')
       /\ written (fs w')
          = [("out/md/platforms/python.md",
              ":orphan:" +:+ nl +:+ ":nosearch:" +:+ nl
              +:+ PLATFORM_HEADER_JINJA_MARKDOWN python
              +:+ MARKDOWN_PLATFORMPAGE_CONTENT_HEADER
              +:+ page_fragment k foo +:+ page_fragment k bar)].
Proof.
  cbv zeta. split; [reflexivity|]. split; [vm_compute; reflexivity|].
  destruct (collection_page_written (sample_step (Some [])) "platform"
              (platform_page (sample_step (Some []))) python [] [foo; bar]
              sample_world_with_pages eq_refl eq_refl) as [_ (w' & Hr & Hw & _)];
    [vm_compute; reflexivity | vm_compute; reflexivity|].
  exists w'. split; [exact Hr|]. rewrite Hw. vm_compute. reflexivity.
Defined.


(** Two clocks that give [foo] different classes. *)
Example clocks_differ :
  fst (date_css_class_of foo (sample_world true)) = Ok "redbox"
  /\ fst (date_css_class_of foo sample_world_1999) = Ok "updated-at".
Proof. split; vm_compute; reflexivity. Qed.

Lemma date_css_class_of_thresholds_witness :
  fst (date_css_class_of (updated_on "2025-11-04") (sample_world true)) = Ok "orangebox".
Proof.
  rewrite (date_css_class_of_thresholds (updated_on "2025-11-04") "2025-11-04"
             (datetime.ymd2ord 2025 11 4 * datetime.microseconds_per_day)%Z
             (sample_world true) eq_refl);
    vm_compute; reflexivity.
Defined.

Lemma stylesheet_is_the_last_write_witness :
  exists before,
    written (fs (snd (render_markdown_multipage (sample_step None) (sample_world true))))
    = (before ++ [("data/html/_static/custom.css", MARKDOWN_CSS)])%list.
Proof.
  destruct (stylesheet_is_the_last_write (sample_step None) (sample_world true))
    as (before & Hw & _); [vm_compute; reflexivity|].
  exists before. exact Hw.
Defined.

(** The run on its own output: the second run leaves the directories and
    the files of the first. *)
Example second_run_changes_nothing :
  let once := snd (render_markdown_multipage (sample_step None) (sample_world true)) in
  let twice := snd (render_markdown_multipage (sample_step None) once) in
  fst (render_markdown_multipage (sample_step None) once) = Ok tt
  /\ files (fs twice) = files (fs once)
  /\ dirs (fs twice) = dirs (fs once).
Proof. cbv zeta. repeat split; vm_compute; reflexivity. Qed.

Lemma invalid_kind_exits_witness :
  render_item_page (sample_step None) "license" wikis [foo; bar] (sample_world true)
  = (Raise (SystemExit 1), sample_world true).
Proof.
  apply (invalid_kind_exits (sample_step None) "license" wikis [foo; bar] (sample_world true));
    discriminate.
Defined.

End examples.

(** * Further properties *)

(** ** Loops that stop, loops that are known to have ended *)

(** A loop like that of [for_acc_select] whose body raises on a selected
    element that is not good: the loop raises on the first such element,
    and the disk is as before. *)
Lemma for_acc_select_raise {A} (sel good : A -> bool) (f : A -> string)
    (bad : A -> exn) (body : string -> A -> M string) (l : list A) :
  (forall acc x w, sel x = false -> body acc x w = (Ok acc, w)) ->
  (forall acc x w, sel x = true -> good x = true ->
     exists w', body acc x w = (Ok (acc +:+ f x), w') /\ fs w' = fs w) ->
  (forall acc x w, sel x = true -> good x = false -> body acc x w = (Raise (bad x), w)) ->
  forallb good (List.filter sel l) = false ->
  forall acc w, exists x w',
    In x (List.filter sel l) /\ good x = false
    /\ for_acc body acc l w = (Raise (bad x), w') /\ fs w' = fs w.
Proof.
  intros Hskip Htake Hbad. induction l as [|x l IH]; intros Hgood acc w; [discriminate|].
  cbn [for_acc List.filter] in *. destruct (sel x) eqn:Hsel.
  - cbn [forallb] in Hgood. destruct (good x) eqn:Hx.
    + destruct (Htake acc x w Hsel Hx) as (w1 & Hbody & Hfs1).
      destruct (IH Hgood (acc +:+ f x) w1) as (y & w2 & Hin & Hy & Hrest & Hfs2).
      exists y, w2. rewrite (bind_ok _ _ _ _ _ Hbody), Hrest.
      repeat split; [now right | assumption | congruence].
    + exists x, w. rewrite (bind_raise _ _ _ _ _ (Hbad acc x w Hsel Hx)).
      repeat split; [now left | assumption].
  - destruct (IH Hgood acc w) as (y & w2 & Hin & Hy & Hrest & Hfs2).
    exists y, w2. rewrite (bind_ok _ _ _ _ _ (Hskip acc x w Hsel)). now repeat split.
Qed.

(** A loop like that of [for_acc_select] that has ended without an
    exception has built the texts of the selected elements. *)
Lemma for_acc_select_inv {A} (sel : A -> bool) (f : A -> string)
    (body : string -> A -> M string) (l : list A) :
  (forall acc x w, sel x = false -> body acc x w = (Ok acc, w)) ->
  (forall acc x w r w', sel x = true -> body acc x w = (Ok r, w') ->
     r = acc +:+ f x /\ fs w' = fs w) ->
  forall acc w r w',
    for_acc body acc l w = (Ok r, w') ->
    r = acc +:+ join (map f (List.filter sel l)) /\ fs w' = fs w.
Proof.
  intros Hskip Htake. induction l as [|x l IH]; intros acc w r w' Hrun.
  - cbn in Hrun. injection Hrun as <- <-. now rewrite append_nil_r.
  - cbn [for_acc List.filter] in *.
    apply bind_ok_inv in Hrun as (r1 & w1 & Hbody & Hrest).
    destruct (sel x) eqn:Hsel.
    + destruct (Htake _ _ _ _ _ Hsel Hbody) as [-> Hfs1].
      destruct (IH _ _ _ _ Hrest) as [-> Hfs2].
      cbn [map join]. rewrite append_assoc. split; [reflexivity | congruence].
    + rewrite (Hskip acc x w Hsel) in Hbody. injection Hbody as <- <-.
      now apply IH.
Qed.

Section further_properties.
Context `{Utils}.

Lemma render_markdown_software_inv (software : Software.t) (a b c r : string)
    (w w' : World) :
  render_markdown_software software a b c w = (Ok r, w') ->
  r = fragment a b c software /\ fs w' = fs w /\ well_dated software = true.
Proof.
  intros Hr. destruct (well_dated software) eqn:Hd.
  - destruct (render_markdown_software_ok software a b c w Hd) as (w1 & Hok & Hfs).
    rewrite Hok in Hr. injection Hr as <- <-. now repeat split.
  - destruct (render_markdown_software_raise software a b c w Hd) as (d & _ & Hraise).
    rewrite Hraise in Hr. discriminate.
Qed.

Lemma render_markdown_software_unreadable (software : Software.t) (a b c : string)
    (w : World) :
  well_dated software = false ->
  render_markdown_software software a b c w = (Raise (unreadable_date software), w).
Proof.
  intros Hd. destruct (render_markdown_software_raise software a b c w Hd) as (d & Hu & Hr).
  unfold unreadable_date. now rewrite Hu.
Qed.

Lemma index_software_list_raise (step : Step.t) (exclude_licenses : list string)
    (software_list : list Software.t) (w : World) :
  Step.exclude_licenses step = Some exclude_licenses ->
  forallb well_dated (index_projects exclude_licenses software_list) = false ->
  exists software w',
    In software (index_projects exclude_licenses software_list)
    /\ well_dated software = false
    /\ index_software_list step software_list w = (Raise (unreadable_date software), w')
    /\ fs w' = fs w.
Proof.
  intros He Hd. unfold index_software_list, index_projects in *.
  eapply (for_acc_select_raise _ well_dated
            (fragment "tags/" "platforms/" "#list-of-licenses") unreadable_date);
    [| | |exact Hd].
  - intros acc x w0 Hx. unfold exclude_licenses_of. rewrite He.
    apply negb_false_iff in Hx. cbn. now rewrite Hx.
  - intros acc x w0 Hx Hg. unfold exclude_licenses_of. rewrite He.
    apply negb_true_iff in Hx. cbn. rewrite Hx.
    destruct (render_markdown_software_ok x "tags/" "platforms/" "#list-of-licenses" w0 Hg)
      as (w1 & Hr & Hfs).
    exists w1. now rewrite (bind_ok _ _ _ _ _ Hr).
  - intros acc x w0 Hx Hg. unfold exclude_licenses_of. rewrite He.
    apply negb_true_iff in Hx. cbn. rewrite Hx.
    now rewrite (bind_raise _ _ _ _ _ (render_markdown_software_unreadable x _ _ _ w0 Hg)).
Qed.

Lemma item_page_software_list_raise (step : Step.t) (k : PageKind) (item : Item.t)
    (exclude_licenses : list string) (software_list : list Software.t) (w : World) :
  Step.exclude_licenses step = Some exclude_licenses ->
  forallb well_dated (page_projects k item exclude_licenses software_list) = false ->
  exists software w',
    In software (page_projects k item exclude_licenses software_list)
    /\ well_dated software = false
    /\ item_page_software_list step k item software_list w
       = (Raise (unreadable_date software), w')
    /\ fs w' = fs w.
Proof.
  intros He Hd. unfold item_page_software_list, page_projects in *.
  eapply (for_acc_select_raise _ well_dated (page_fragment k) unreadable_date);
    [| | |exact Hd].
  - intros acc x w0 Hx. unfold exclude_licenses_of. rewrite He. cbn.
    destruct (any_license_excluded x exclude_licenses); [reflexivity|].
    cbn in Hx. now rewrite Hx.
  - intros acc x w0 Hx Hg. unfold exclude_licenses_of. rewrite He. cbn.
    apply andb_true_iff in Hx as [Hx Hm]. apply negb_true_iff in Hx. rewrite Hx, Hm.
    destruct (render_markdown_software_ok x (tags_relative_url k) (platforms_relative_url k)
                "../index.html#list-of-licenses" w0 Hg) as (w1 & Hr & Hfs).
    exists w1. now rewrite (bind_ok _ _ _ _ _ Hr).
  - intros acc x w0 Hx Hg. unfold exclude_licenses_of. rewrite He. cbn.
    apply andb_true_iff in Hx as [Hx Hm]. apply negb_true_iff in Hx. rewrite Hx, Hm.
    now rewrite (bind_raise _ _ _ _ _ (render_markdown_software_unreadable x _ _ _ w0 Hg)).
Qed.

(** ** The run that stops early *)

(** When no file stands at [markdown/header.md] or at [markdown/footer.md]
    of a source directory that is spelled plainly, the run ends with the
    error of that [open],
    for the header when both are missing: [IsADirectoryError] when the path
    is a directory, [NotADirectoryError] when a regular file is on the way
    to it, [FileNotFoundError] otherwise.  The world is as it was: no
    directory made, no file written. *)
Theorem missing_header_or_footer_aborts (step : Step.t) (w : World) :
  let header := Step.source_directory step +:+ "/markdown/header.md" in
  let footer := Step.source_directory step +:+ "/markdown/footer.md" in
  let missing := if bool_decide (files (fs w) !! header = None) then header else footer in
  os.plain (Step.source_directory step) = true ->
  files (fs w) !! header = None \/ files (fs w) !! footer = None ->
  render_markdown_multipage step w
  = (Raise (if os.isdir (fs w) missing then IsADirectoryError missing
            else if os.blocked (fs w) (os.on_the_way missing) then NotADirectoryError missing
            else FileNotFoundError missing), w).
Proof.
  intros header footer missing _ Hmiss. subst missing.
  unfold render_markdown_multipage. cbv zeta.
  change (Step.source_directory (with_defaults step)) with (Step.source_directory step).
  rewrite !bind_load_yaml_items, bind_load_yaml_software, bind_load_yaml_licenses.
  fold header footer.
  destruct (files (fs w) !! header) as [h|] eqn:Hh.
  - destruct Hmiss as [?|Hf]; [discriminate|].
    rewrite (bind_ok _ _ _ _ _ (open_read_ok _ _ _ Hh)).
    rewrite bool_decide_eq_false_2 by discriminate.
    apply bind_raise. unfold os.open_read, os.no_file, os.no_way. now rewrite Hf.
  - rewrite bool_decide_eq_true_2 by reflexivity.
    apply bind_raise. unfold os.open_read, os.no_file, os.no_way. now rewrite Hh.
Qed.

(** When a project that survives the license exclusion has an [updated_at]
    that [strptime] refuses, the run ends with [ValueError] for the first
    such project, before any directory is made or any file written.  A
    project that is excluded is not rendered, so its date cannot stop the
    run. *)
Theorem unreadable_date_aborts (step : Step.t) (w : World)
    (markdown_header markdown_footer : string) :
  let software_list :=
    yaml_software (fs w) (Step.source_directory step +:+ "/software") in
  let exclude_licenses := default [] (Step.exclude_licenses step) in
  files (fs w) !! (Step.source_directory step +:+ "/markdown/header.md")
    = Some markdown_header ->
  files (fs w) !! (Step.source_directory step +:+ "/markdown/footer.md")
    = Some markdown_footer ->
  forallb well_dated (index_projects exclude_licenses software_list) = false ->
  exists software updated_at,
    In software software_list
    /\ any_license_excluded software exclude_licenses = false
    /\ Software.updated_at software = Some updated_at
    /\ datetime.strptime_ymd updated_at = None
    /\ fst (render_markdown_multipage step w) = Raise (ValueError updated_at)
    /\ fs (snd (render_markdown_multipage step w)) = fs w.
Proof.
  intros software_list exclude_licenses Hh Hf Hd.
  destruct (index_software_list_raise (with_defaults step) exclude_licenses software_list w
              (exclude_licenses_with_defaults step) Hd)
    as (software & w' & Hin & Hbad & Hloop & Hfs).
  destruct (render_markdown_software_raise software "" "" "" w Hbad) as (d & Hu & _).
  exists software, d.
  apply filter_In in Hin as [Hin Hx]. apply negb_true_iff in Hx.
  repeat split; try assumption.
  - unfold well_dated in Hbad. rewrite Hu in Hbad. apply bool_decide_eq_false in Hbad.
    destruct (datetime.strptime_ymd d) eqn:E; [|reflexivity]. destruct Hbad. now eexists.
  - unfold render_markdown_multipage. cbv zeta.
    change (Step.source_directory (with_defaults step)) with (Step.source_directory step).
    rewrite !bind_load_yaml_items, bind_load_yaml_software, bind_load_yaml_licenses.
    rewrite (bind_ok _ _ _ _ _ (open_read_ok _ _ _ Hh)).
    rewrite (bind_ok _ _ _ _ _ (open_read_ok _ _ _ Hf)).
    rewrite (bind_raise _ _ _ _ _ Hloop). unfold unreadable_date. now rewrite Hu.
  - unfold render_markdown_multipage. cbv zeta.
    change (Step.source_directory (with_defaults step)) with (Step.source_directory step).
    rewrite !bind_load_yaml_items, bind_load_yaml_software, bind_load_yaml_licenses.
    rewrite (bind_ok _ _ _ _ _ (open_read_ok _ _ _ Hh)).
    rewrite (bind_ok _ _ _ _ _ (open_read_ok _ _ _ Hf)).
    now rewrite (bind_raise _ _ _ _ _ Hloop).
Qed.

(** When the output directory, spelled plainly, is no directory and
    nothing stands where its [md] goes, the run ends at the first [mkdir],
    with
    [NotADirectoryError] when a regular file is on the way to [md] (the
    output directory itself, or a name before it) and with
    [FileNotFoundError] otherwise: missing parents are not made, and
    nothing is written. *)
Theorem missing_output_directory_aborts (step : Step.t) (w : World)
    (markdown_header markdown_footer : string) :
  let out := Step.output_directory step in
  files (fs w) !! (Step.source_directory step +:+ "/markdown/header.md")
    = Some markdown_header ->
  files (fs w) !! (Step.source_directory step +:+ "/markdown/footer.md")
    = Some markdown_footer ->
  forallb well_dated
    (index_projects (default [] (Step.exclude_licenses step))
       (yaml_software (fs w) (Step.source_directory step +:+ "/software"))) = true ->
  os.plain out = true ->
  os.isdir (fs w) out = false ->
  os.isdir (fs w) (out +:+ "/md") = false ->
  os.isfile (fs w) (out +:+ "/md") = false ->
  fst (render_markdown_multipage step w)
  = Raise (if os.blocked (fs w) (os.on_the_way (out +:+ "/md"))
           then NotADirectoryError (out +:+ "/md/")
           else FileNotFoundError (out +:+ "/md/"))
  /\ fs (snd (render_markdown_multipage step w)) = fs w.
Proof.
  intros out Hh Hf Hd _ Hout Hmd Hfile.
  unfold render_markdown_multipage. cbv zeta.
  change (Step.source_directory (with_defaults step)) with (Step.source_directory step).
  change (Step.output_directory (with_defaults step)) with out.
  rewrite !bind_load_yaml_items, bind_load_yaml_software, bind_load_yaml_licenses.
  rewrite (bind_ok _ _ _ _ _ (open_read_ok _ _ _ Hh)).
  rewrite (bind_ok _ _ _ _ _ (open_read_ok _ _ _ Hf)).
  destruct (index_software_list_ok (with_defaults step) _ _ w
              (exclude_licenses_with_defaults step) Hd) as (w1 & Hl & Hfs1).
  rewrite (bind_ok _ _ _ _ _ Hl).
  rewrite (bind_ok _ _ _ _ _ (output_file_with_defaults step w1)).
  assert (Hmk : for_each
                  (fun directory =>
                     except_FileExistsError_pass (os.mkdir (out +:+ directory)))
                  ["/md/"; "/md/tags/"; "/md/platforms/"] w1
                = (Raise (if os.blocked (fs w) (os.on_the_way (out +:+ "/md"))
                          then NotADirectoryError (out +:+ "/md/")
                          else FileNotFoundError (out +:+ "/md/")), w1)).
  { unfold for_each. cbn [for_acc]. apply bind_raise.
    unfold except_FileExistsError_pass, os.mkdir, os.no_way.
    unfold os.isdir, os.isfile, os.parent_isdir in *.
    change (out +:+ "/md/") with (out +:+ "/" +:+ "md" +:+ "/").
    rewrite (rstrip_slash_entry_slash out "md" eq_refl) by discriminate.
    rewrite (dirname_entry_slash out "md" eq_refl) by discriminate.
    change (out +:+ "/md") with (out +:+ "/" +:+ "md") in Hmd, Hfile.
    rewrite (rstrip_slash_entry out "md" eq_refl) in Hmd, Hfile by discriminate.
    rewrite Hfs1, Hmd, Hfile, Hout. cbn [orb].
    change (out +:+ "/" +:+ "md") with (out +:+ "/md").
    now destruct (os.blocked (fs w) (os.on_the_way (out +:+ "/md"))). }
  rewrite (bind_raise _ _ _ _ _ Hmk). cbn. split; [reflexivity | exact Hfs1].
Qed.

(** ** The page renderer on its own *)

Lemma item_page_software_list_no_key (step : Step.t) (k : PageKind) (item : Item.t)
    (software : Software.t) (software_list : list Software.t) (w : World) :
  Step.exclude_licenses step = None ->
  item_page_software_list step k item (software :: software_list) w
  = (Raise (KeyError "exclude_licenses"), w).
Proof.
  intros He. unfold item_page_software_list. cbn [for_acc].
  apply bind_raise. apply bind_raise. unfold exclude_licenses_of. now rewrite He.
Qed.

(** Called for a step without the key [exclude_licenses] (the entry point
    sets it, [render_item_page] reads it inside its loop): with at least
    one project the call ends with [KeyError] and writes nothing; with no
    project at all the key is never read, and the call writes the header
    block of the label. *)
Theorem item_page_without_exclusion_list (step : Step.t) (item_type : string)
    (k : PageKind) (item : Item.t) (software : Software.t)
    (software_list : list Software.t) (w : World) :
  Step.exclude_licenses step = None ->
  page_kind step item_type w = (Ok k, w) ->
  render_item_page step item_type item (software :: software_list) w
  = (Raise (KeyError "exclude_licenses"), w)
  /\ render_item_page step item_type item [] w
     = os.open_write (page_path k item) (header_template k item) w.
Proof.
  intros He Hk. unfold render_item_page. rewrite !(bind_ok _ _ _ _ _ Hk). split.
  - apply bind_raise. now apply item_page_software_list_no_key.
  - reflexivity.
Qed.

(** When a project shown on the page of a label has an [updated_at] that
    [strptime] refuses, the call ends with [ValueError] and the page is not
    written, not even in part: the disk is as it was. *)
Theorem item_page_unreadable_date (step : Step.t) (item_type : string) (k : PageKind)
    (item : Item.t) (exclude_licenses : list string) (software_list : list Software.t)
    (w : World) :
  page_kind step item_type w = (Ok k, w) ->
  Step.exclude_licenses step = Some exclude_licenses ->
  forallb well_dated (page_projects k item exclude_licenses software_list) = false ->
  exists software updated_at,
    In software (page_projects k item exclude_licenses software_list)
    /\ Software.updated_at software = Some updated_at
    /\ datetime.strptime_ymd updated_at = None
    /\ fst (render_item_page step item_type item software_list w)
       = Raise (ValueError updated_at)
    /\ fs (snd (render_item_page step item_type item software_list w)) = fs w.
Proof.
  intros Hk He Hd.
  destruct (item_page_software_list_raise step k item exclude_licenses software_list w He Hd)
    as (software & w' & Hin & Hbad & Hloop & Hfs).
  destruct (render_markdown_software_raise software "" "" "" w Hbad) as (d & Hu & _).
  exists software, d. repeat split; try assumption.
  - unfold well_dated in Hbad. rewrite Hu in Hbad. apply bool_decide_eq_false in Hbad.
    destruct (datetime.strptime_ymd d) eqn:E; [|reflexivity]. destruct Hbad. now eexists.
  - unfold render_item_page. rewrite (bind_ok _ _ _ _ _ Hk), (bind_raise _ _ _ _ _ Hloop).
    unfold unreadable_date. now rewrite Hu.
  - unfold render_item_page. now rewrite (bind_ok _ _ _ _ _ Hk), (bind_raise _ _ _ _ _ Hloop).
Qed.

Lemma item_page_software_list_fs (step : Step.t) (k : PageKind) (item : Item.t)
    (software_list : list Software.t) (w : World) :
  fs (snd (item_page_software_list step k item software_list w)) = fs w.
Proof.
  destruct (Step.exclude_licenses step) as [excl|] eqn:He.
  - destruct (forallb well_dated (page_projects k item excl software_list)) eqn:Hd.
    + destruct (item_page_software_list_ok step k item excl software_list w He Hd)
        as (w' & -> & Hfs). exact Hfs.
    + destruct (item_page_software_list_raise step k item excl software_list w He Hd)
        as (x & w' & _ & _ & -> & Hfs). exact Hfs.
  - destruct software_list as [|x l]; [reflexivity|].
    now rewrite item_page_software_list_no_key.
Qed.

Lemma open_write_inv (path text : string) (w w' : World) (r : result unit) :
  os.open_write path text w = (r, w') ->
  (r = Ok tt /\ w' = with_fs w (os.write_file path text (fs w))) \/ (r <> Ok tt /\ w' = w).
Proof.
  intros Hw. destruct (open_write_cases path text w) as [[_ E]|[_ [e E]]];
    rewrite E in Hw; injection Hw as <- <-; [now left | now right].
Qed.

(** Whatever its arguments and however it ends, [render_item_page] makes
    and removes no directory, and the only file it can change is the page
    of the label: every other path holds after the call what it held
    before. *)
Theorem render_item_page_frame (step : Step.t) (item_type : string) (item : Item.t)
    (software_list : list Software.t) (w : World) (path : string) :
  path <> page_path (tag_page step) item ->
  path <> page_path (platform_page step) item ->
  files (fs (snd (render_item_page step item_type item software_list w))) !! path
  = files (fs w) !! path
  /\ dirs (fs (snd (render_item_page step item_type item software_list w))) = dirs (fs w).
Proof.
  intros Htag Hplat. unfold render_item_page.
  destruct (page_kind step item_type w) as [[k|e] w0] eqn:Hk.
  - destruct (page_kind_cases _ _ _ _ _ Hk) as [-> Hcases].
    rewrite (bind_ok _ _ _ _ _ Hk).
    pose proof (item_page_software_list_fs step k item software_list w) as Hfs.
    destruct (item_page_software_list step k item software_list w) as [[r|e] w1] eqn:Hl;
      cbn [snd] in Hfs.
    + rewrite (bind_ok _ _ _ _ _ Hl).
      match goal with |- context [os.open_write ?p ?t w1] =>
        destruct (os.open_write p t w1) as [r' w2] eqn:Hw;
        destruct (open_write_inv _ _ _ _ _ Hw) as [[_ ->]|[_ ->]] end;
        cbn [snd with_fs fs os.write_file files dirs]; rewrite Hfs; [|now split].
      split; [|reflexivity]. apply lookup_insert_ne.
      fold (page_path k item). destruct Hcases as [[_ ->]|[_ ->]]; congruence.
    + rewrite (bind_raise _ _ _ _ _ Hl). cbn. now rewrite Hfs.
  - rewrite (bind_raise _ _ _ _ _ Hk). unfold page_kind in Hk.
    destruct (String.eqb _ _); [discriminate|]. destruct (String.eqb _ _); [discriminate|].
    injection Hk as <- <-. now split.
Qed.

(** Two labels of one kind whose names have the same slug share one page
    path: rendered one after the other, both calls succeed, and the file
    holds the page of the second label only. *)
Theorem same_path_last_page_wins (step : Step.t) (item_type : string) (k : PageKind)
    (first second : Item.t) (exclude_licenses : list string)
    (software_list : list Software.t) (w : World) :
  page_kind step item_type w = (Ok k, w) ->
  Step.exclude_licenses step = Some exclude_licenses ->
  forallb well_dated (index_projects exclude_licenses software_list) = true ->
  os.can_write (fs w) (page_path k first) = true ->
  page_path k second = page_path k first ->
  exists w1 w2,
    render_item_page step item_type first software_list w = (Ok tt, w1)
    /\ render_item_page step item_type second software_list w1 = (Ok tt, w2)
    /\ files (fs w2) !! page_path k first
       = Some (page_markdown k second
                 (page_projects k second exclude_licenses software_list))
    /\ written (fs w2)
       = (written (fs w)
          ++ [(page_path k first,
               page_markdown k first (page_projects k first exclude_licenses software_list));
              (page_path k first,
               page_markdown k second
                 (page_projects k second exclude_licenses software_list))])%list.
Proof.
  intros Hk He Hd Hw Hsame.
  assert (Hp : forall item,
    forallb well_dated (page_projects k item exclude_licenses software_list) = true).
  { intros item. rewrite page_projects_index_projects. now apply forallb_filter. }
  destruct (render_item_page_ok step item_type k first exclude_licenses software_list w
              Hk He (Hp _) Hw) as (w1 & Hr1 & Hfs1).
  assert (Hk1 : page_kind step item_type w1 = (Ok k, w1)).
  { destruct (page_kind_cases _ _ _ _ _ Hk) as [_ [[-> ->]|[-> ->]]]; reflexivity. }
  assert (Hw1 : os.can_write (fs w1) (page_path k second) = true).
  { rewrite Hsame, Hfs1. exact Hw. }
  destruct (render_item_page_ok step item_type k second exclude_licenses software_list w1
              Hk1 He (Hp _) Hw1) as (w2 & Hr2 & Hfs2).
  exists w1, w2. split; [exact Hr1|]. split; [exact Hr2|].
  rewrite Hfs2, Hfs1, Hsame. cbn [os.write_file files written]. split.
  - apply lookup_insert_eq.
  - now rewrite <- app_assoc.
Qed.

(** ** A run that ended well *)

Lemma open_read_inv (path text : string) (w w' : World) :
  os.open_read path w = (Ok text, w') -> files (fs w) !! path = Some text /\ w' = w.
Proof.
  unfold os.open_read. destruct (files (fs w) !! path); [|discriminate].
  now intros [= <- <-].
Qed.

Lemma index_software_list_inv (step : Step.t) (exclude_licenses : list string)
    (software_list : list Software.t) (r : string) (w w' : World) :
  Step.exclude_licenses step = Some exclude_licenses ->
  index_software_list step software_list w = (Ok r, w') ->
  r = join (map (fragment "tags/" "platforms/" "#list-of-licenses")
              (index_projects exclude_licenses software_list))
  /\ fs w' = fs w.
Proof.
  intros He Hrun. unfold index_software_list, index_projects in *.
  refine (for_acc_select_inv _ _ _ _ _ _ "" w r w' Hrun).
  - intros acc x w0 Hx. unfold exclude_licenses_of. rewrite He.
    apply negb_false_iff in Hx. cbn. now rewrite Hx.
  - intros acc x w0 r0 w1 Hx. unfold exclude_licenses_of. rewrite He.
    apply negb_true_iff in Hx. cbn. rewrite Hx.
    intros (ms & w2 & Hr & [= <- <-])%bind_ok_inv.
    apply render_markdown_software_inv in Hr as (-> & Hfs & _). now split.
Qed.

Lemma item_page_software_list_inv (step : Step.t) (k : PageKind) (item : Item.t)
    (exclude_licenses : list string) (software_list : list Software.t) (r : string)
    (w w' : World) :
  Step.exclude_licenses step = Some exclude_licenses ->
  item_page_software_list step k item software_list w = (Ok r, w') ->
  r = join (map (page_fragment k) (page_projects k item exclude_licenses software_list))
  /\ fs w' = fs w.
Proof.
  intros He Hrun. unfold item_page_software_list, page_projects in *.
  refine (for_acc_select_inv _ _ _ _ _ _ "" w r w' Hrun).
  - intros acc x w0 Hx. unfold exclude_licenses_of. rewrite He. cbn.
    destruct (any_license_excluded x exclude_licenses); [reflexivity|].
    cbn in Hx. now rewrite Hx.
  - intros acc x w0 r0 w1 Hx. unfold exclude_licenses_of. rewrite He. cbn.
    apply andb_true_iff in Hx as [Hx Hm]. apply negb_true_iff in Hx. rewrite Hx, Hm.
    intros (ms & w2 & Hr & [= <- <-])%bind_ok_inv.
    apply render_markdown_software_inv in Hr as (-> & Hfs & _). now split.
Qed.

Lemma render_item_page_inv (step : Step.t) (item_type : string) (k : PageKind)
    (item : Item.t) (exclude_licenses : list string) (software_list : list Software.t)
    (w w' : World) :
  page_kind step item_type w = (Ok k, w) ->
  Step.exclude_licenses step = Some exclude_licenses ->
  render_item_page step item_type item software_list w = (Ok tt, w') ->
  fs w' = os.write_file (page_path k item)
            (page_markdown k item (page_projects k item exclude_licenses software_list))
            (fs w).
Proof.
  intros Hk He Hrun. unfold render_item_page in Hrun.
  rewrite (bind_ok _ _ _ _ _ Hk) in Hrun.
  apply bind_ok_inv in Hrun as (r & w1 & Hl & Hw).
  apply (item_page_software_list_inv _ _ _ exclude_licenses) in Hl as [-> Hfs];
    [|exact He].
  rewrite page_markdown_join in Hw. fold (page_path k item) in Hw.
  destruct (open_write_inv _ _ _ _ _ Hw) as [[_ ->]|[Hne _]]; [|now destruct Hne].
  cbn. now rewrite Hfs.
Qed.

Lemma for_each_pages_inv (step : Step.t) (item_type : string) (k : PageKind)
    (exclude_licenses : list string) (software_list : list Software.t)
    (items : list Item.t) (w w' : World) :
  (forall w0, page_kind step item_type w0 = (Ok k, w0)) ->
  Step.exclude_licenses step = Some exclude_licenses ->
  for_each (fun item => render_item_page step item_type item software_list) items w
  = (Ok tt, w') ->
  written (fs w')
  = (written (fs w) ++ pages_written k exclude_licenses software_list items)%list.
Proof.
  intros Hk He. revert w. induction items as [|item items IH]; intros w Hrun.
  - cbn in Hrun. injection Hrun as <-. cbn. now rewrite app_nil_r.
  - unfold for_each in *. cbn [for_acc] in Hrun.
    apply bind_ok_inv in Hrun as ([] & w1 & Hpage & Hrest).
    apply (render_item_page_inv _ _ k _ exclude_licenses) in Hpage; [|apply Hk | exact He].
    rewrite (IH _ Hrest), Hpage. cbn [os.write_file written pages_written map].
    now rewrite <- app_assoc.
Qed.

Lemma except_mkdir_written (path : string) (w : World) :
  written (fs (snd (except_FileExistsError_pass (os.mkdir path) w))) = written (fs w).
Proof.
  unfold except_FileExistsError_pass.
  destruct (mkdir_cases path w) as [->|[e ->]]; [reflexivity | now destruct e].
Qed.

Lemma for_each_mkdir_written (out : string) (directories : list string) (w : World) :
  written (fs (snd (for_each
                      (fun directory =>
                         except_FileExistsError_pass (os.mkdir (out +:+ directory)))
                      directories w)))
  = written (fs w).
Proof.
  revert w. induction directories as [|d l IH]; intros w; [reflexivity|].
  unfold for_each in *. cbn [for_acc]. unfold bind at 1.
  pose proof (except_mkdir_written (out +:+ d) w) as Hd.
  destruct (except_FileExistsError_pass (os.mkdir (out +:+ d)) w) as [[[]|e] w1];
    cbn [snd] in Hd; [|exact Hd].
  now rewrite IH.
Qed.

(** A run that ends without an exception has written, in this order and
    nothing else: the index, the page of every tag in the order of the
    tags, the page of every platform in the order of the platforms, and the
    stylesheet.  Each page is the one of [page_markdown] for the projects of
    [page_projects]. *)
Theorem run_writes_exactly (step : Step.t) (w : World) :
  let source_directory := Step.source_directory step in
  let tags := yaml_items (fs w) (source_directory +:+ "/tags") in
  let platforms := yaml_items (fs w) (source_directory +:+ "/platforms") in
  let software_list := yaml_software (fs w) (source_directory +:+ "/software") in
  let exclude_licenses := default [] (Step.exclude_licenses step) in
  fst (render_markdown_multipage step w) = Ok tt ->
  exists markdown_header markdown_footer,
    files (fs w) !! (source_directory +:+ "/markdown/header.md") = Some markdown_header
    /\ files (fs w) !! (source_directory +:+ "/markdown/footer.md") = Some markdown_footer
    /\ written (fs (snd (render_markdown_multipage step w)))
       = (written (fs w)
          ++ (Step.output_directory step +:+ "/md/" +:+ output_file_name_of step,
              index_markdown step (fs w) markdown_header markdown_footer)
             :: pages_written (tag_page step) exclude_licenses software_list tags
          ++ pages_written (platform_page step) exclude_licenses software_list platforms
          ++ [(source_directory +:+ "/html/_static/custom.css", MARKDOWN_CSS)])%list.
Proof.
  intros source_directory tags platforms software_list exclude_licenses.
  destruct (render_markdown_multipage step w) as [r w'] eqn:Hrun. cbn [fst snd].
  intros ->. unfold render_markdown_multipage in Hrun. cbv zeta in Hrun.
  change (Step.source_directory (with_defaults step)) with source_directory in Hrun.
  change (Step.output_directory (with_defaults step)) with (Step.output_directory step)
    in Hrun.
  rewrite !bind_load_yaml_items, bind_load_yaml_software, bind_load_yaml_licenses in Hrun.
  fold tags platforms software_list in Hrun.
  apply bind_ok_inv in Hrun as (h & w0 & [Hh ->]%open_read_inv & Hrun).
  apply bind_ok_inv in Hrun as (ft & w0 & [Hf ->]%open_read_inv & Hrun).
  apply bind_ok_inv in Hrun as (r1 & w1 & Hl & Hrun).
  apply (index_software_list_inv _ exclude_licenses) in Hl as [-> Hfs1];
    [|apply exclude_licenses_with_defaults].
  rewrite (bind_ok _ _ _ _ _ (output_file_with_defaults step w1)) in Hrun.
  apply bind_ok_inv in Hrun as ([] & w2 & Hm & Hrun).
  pose proof (for_each_mkdir_written (Step.output_directory step)
                ["/md/"; "/md/tags/"; "/md/platforms/"] w1) as W2.
  rewrite Hm in W2. cbn [snd] in W2.
  apply bind_ok_inv in Hrun as ([] & w3 & Hiw & Hrun).
  destruct (open_write_inv _ _ _ _ _ Hiw) as [[_ ->]|[Hne _]]; [|now destruct Hne].
  apply bind_ok_inv in Hrun as ([] & w4 & Htags & Hrun).
  apply (for_each_pages_inv _ _ (tag_page (with_defaults step)) exclude_licenses)
    in Htags; [|reflexivity | apply exclude_licenses_with_defaults].
  apply bind_ok_inv in Hrun as ([] & w5 & Hplatforms & Hrun).
  apply (for_each_pages_inv _ _ (platform_page (with_defaults step)) exclude_licenses)
    in Hplatforms; [|reflexivity | apply exclude_licenses_with_defaults].
  apply bind_ok_inv in Hrun as ([] & w6 & Hs & Hrun).
  pose proof (except_mkdir_written (Step.output_directory step +:+ "/_static") w5) as W6.
  rewrite Hs in W6. cbn [snd] in W6.
  destruct (open_write_inv _ _ _ _ _ Hrun) as [[_ ->]|[Hne _]]; [|now destruct Hne].
  exists h, ft. split; [exact Hh|]. split; [exact Hf|].
  cbn [with_fs fs os.write_file written] in *.
  rewrite W6, Hplatforms, Htags, W2, Hfs1.
  change (tag_page (with_defaults step)) with (tag_page step).
  change (platform_page (with_defaults step)) with (platform_page step).
  unfold index_markdown. fold source_directory tags software_list exclude_licenses.
  rewrite <- !app_assoc. cbn [app]. rewrite (append_assoc ":tocdepth: 2" nl). reflexivity.
Qed.

(** ** What a run leaves alone *)

Lemma orderly_same_fs {A} (m : M A) : (forall w, fs (snd (m w)) = fs w) -> orderly m.
Proof.
  intros Hm w. rewrite Hm. repeat split; [reflexivity|].
  exists []. now rewrite app_nil_r.
Qed.

Lemma orderly_ret {A} (a : A) : orderly (ret a).
Proof. now apply orderly_same_fs. Qed.

Lemma orderly_raise {A} (e : exn) : orderly (@raise A e).
Proof. now apply orderly_same_fs. Qed.

Lemma orderly_bind {A B} (m : M A) (k : A -> M B) :
  orderly m -> (forall a, orderly (k a)) -> orderly (bind m k).
Proof.
  intros Hm Hk w. unfold bind.
  destruct (Hm w) as (D1 & I1 & S1 & L1 & log1 & W1 & F1).
  destruct (m w) as [[a|e] w1]; cbn [snd] in *.
  - destruct (Hk a w1) as (D2 & I2 & S2 & L2 & log2 & W2 & F2).
    repeat split; [now transitivity (dirs (fs w1)) | congruence | congruence | congruence|].
    exists (log1 ++ log2)%list. rewrite W2, W1, F2, F1, app_assoc.
    split; [reflexivity|]. unfold replay. now rewrite fold_left_app.
  - repeat split; try assumption. now exists log1.
Qed.

Lemma orderly_for_acc {A B} (body : B -> A -> M B) (l : list A) (acc : B) :
  (forall acc x, orderly (body acc x)) -> orderly (for_acc body acc l).
Proof.
  intros Hb. revert acc. induction l as [|x l IH]; intros acc; cbn [for_acc].
  - apply orderly_ret.
  - apply orderly_bind; auto.
Qed.

Lemma orderly_except (m : M unit) : orderly m -> orderly (except_FileExistsError_pass m).
Proof.
  intros Hm w. unfold except_FileExistsError_pass. specialize (Hm w).
  destruct (m w) as [[[]|[]] w1]; exact Hm.
Qed.

Lemma orderly_mkdir (path : string) : orderly (os.mkdir path).
Proof.
  intros w. destruct (mkdir_cases path w) as [->|[e ->]];
    [|exact (orderly_ret tt w)].
  cbn. repeat split; [apply union_subseteq_r|]. exists []. now rewrite app_nil_r.
Qed.

Lemma orderly_open_write (path text : string) : orderly (os.open_write path text).
Proof.
  intros w. destruct (open_write_cases path text w) as [[_ ->]|[_ [e ->]]];
    [|exact (orderly_ret tt w)].
  cbn. repeat split; [reflexivity|]. now exists [(path, text)].
Qed.

Lemma orderly_render_item_page (step : Step.t) (item_type : string) (item : Item.t)
    (software_list : list Software.t) :
  orderly (render_item_page step item_type item software_list).
Proof.
  unfold render_item_page. apply orderly_bind.
  - unfold page_kind. destruct (String.eqb _ _); [apply orderly_ret|].
    destruct (String.eqb _ _); [apply orderly_ret | apply orderly_raise].
  - intros k. apply orderly_bind; [|intros; apply orderly_open_write].
    apply orderly_same_fs. intros w. apply item_page_software_list_fs.
Qed.

Lemma index_software_list_fs (step : Step.t) (software_list : list Software.t) (w : World) :
  fs (snd (index_software_list step software_list w)) = fs w.
Proof.
  destruct (Step.exclude_licenses step) as [excl|] eqn:He.
  - destruct (forallb well_dated (index_projects excl software_list)) eqn:Hd.
    + destruct (index_software_list_ok step excl software_list w He Hd) as (w' & -> & Hfs).
      exact Hfs.
    + destruct (index_software_list_raise step excl software_list w He Hd)
        as (x & w' & _ & _ & -> & Hfs). exact Hfs.
  - destruct software_list as [|x l]; [reflexivity|].
    unfold index_software_list. cbn [for_acc]. unfold bind, exclude_licenses_of.
    now rewrite He.
Qed.

Lemma orderly_render_markdown_multipage (step : Step.t) :
  orderly (render_markdown_multipage step).
Proof.
  unfold render_markdown_multipage. cbv zeta.
  apply orderly_bind; [now apply orderly_same_fs | intros tags].
  apply orderly_bind; [now apply orderly_same_fs | intros platforms].
  apply orderly_bind; [now apply orderly_same_fs | intros software_list].
  apply orderly_bind; [now apply orderly_same_fs | intros licenses].
  apply orderly_bind; [|intros markdown_header].
  { apply orderly_same_fs. intros w. unfold os.open_read. now destruct (_ !! _). }
  apply orderly_bind; [|intros markdown_footer].
  { apply orderly_same_fs. intros w. unfold os.open_read. now destruct (_ !! _). }
  apply orderly_bind; [|intros markdown_software_list].
  { apply orderly_same_fs. intros w. apply index_software_list_fs. }
  apply orderly_bind; [|intros output_file].
  { unfold output_file_of. destruct (Step.output_file _); [apply orderly_ret | apply orderly_raise]. }
  apply orderly_bind; [|intros _].
  { apply orderly_for_acc. intros _ d. apply orderly_except, orderly_mkdir. }
  apply orderly_bind; [apply orderly_open_write | intros _].
  apply orderly_bind; [|intros _].
  { apply orderly_for_acc. intros _ x. apply orderly_render_item_page. }
  apply orderly_bind; [|intros _].
  { apply orderly_for_acc. intros _ x. apply orderly_render_item_page. }
  apply orderly_bind; [apply orderly_except, orderly_mkdir | intros _].
  apply orderly_open_write.
Qed.

Lemma replay_not_written (log : list (string * string)) (files : gmap string string)
    (path : string) :
  ~ In path (map fst log) -> replay log files !! path = files !! path.
Proof.
  revert files. induction log as [|[p t] log IH]; intros files Hnot; [reflexivity|].
  cbn [replay fold_left fst snd] in *. fold (replay log (<[p:=t]> files)).
  rewrite IH by (intros Hin; apply Hnot; now right).
  apply lookup_insert_ne. intros ->. apply Hnot. now left.
Qed.

Lemma replay_is_Some (log : list (string * string)) (files : gmap string string)
    (path : string) :
  is_Some (files !! path) -> is_Some (replay log files !! path).
Proof.
  revert files. induction log as [|[p t] log IH]; intros files Hsome; [exact Hsome|].
  cbn [replay fold_left fst snd]. fold (replay log (<[p:=t]> files)).
  apply IH. rewrite lookup_insert_is_Some. destruct (decide (p = path)); auto.
Qed.

Lemma replay_written (log : list (string * string)) (files1 files2 : gmap string string)
    (path : string) :
  In path (map fst log) ->
  is_Some (replay log files1 !! path)
  /\ replay log files1 !! path = replay log files2 !! path.
Proof.
  revert files1 files2. induction log as [|[p t] log IH]; intros files1 files2 Hin;
    [destruct Hin|].
  cbn [replay fold_left fst snd] in *.
  fold (replay log (<[p:=t]> files1)) (replay log (<[p:=t]> files2)).
  destruct (in_dec string_dec path (map fst log)) as [Hlater|Hlast]; [now apply IH|].
  cbn [map fst In] in Hin. destruct Hin as [<-|Hin]; [|contradiction].
  rewrite !replay_not_written by exact Hlast.
  rewrite !lookup_insert_eq. split; [now eexists | reflexivity].
Qed.

(** What a run that ended without an exception found, wrote and left. *)
Lemma run_ended_well (step : Step.t) (w : World) :
  let source_directory := Step.source_directory step in
  let tags := yaml_items (fs w) (source_directory +:+ "/tags") in
  let platforms := yaml_items (fs w) (source_directory +:+ "/platforms") in
  let software_list := yaml_software (fs w) (source_directory +:+ "/software") in
  let exclude_licenses := default [] (Step.exclude_licenses step) in
  fst (render_markdown_multipage step w) = Ok tt ->
  exists markdown_header markdown_footer log,
    files (fs w) !! (source_directory +:+ "/markdown/header.md") = Some markdown_header
    /\ files (fs w) !! (source_directory +:+ "/markdown/footer.md") = Some markdown_footer
    /\ log = ((Step.output_directory step +:+ "/md/" +:+ output_file_name_of step,
               index_markdown step (fs w) markdown_header markdown_footer)
              :: pages_written (tag_page step) exclude_licenses software_list tags
              ++ pages_written (platform_page step) exclude_licenses software_list platforms
              ++ [(source_directory +:+ "/html/_static/custom.css", MARKDOWN_CSS)])%list
    /\ written (fs (snd (render_markdown_multipage step w))) = (written (fs w) ++ log)%list
    /\ files (fs (snd (render_markdown_multipage step w))) = replay log (files (fs w)).
Proof.
  intros source_directory tags platforms software_list exclude_licenses Hok.
  destruct (orderly_render_markdown_multipage step w) as (_ & _ & _ & _ & log & W & F).
  destruct (render_markdown_multipage step w) as [r w'] eqn:Hrun. cbn [fst snd] in *.
  subst r. unfold render_markdown_multipage in Hrun. cbv zeta in Hrun.
  change (Step.source_directory (with_defaults step)) with source_directory in Hrun.
  change (Step.output_directory (with_defaults step)) with (Step.output_directory step)
    in Hrun.
  rewrite !bind_load_yaml_items, bind_load_yaml_software, bind_load_yaml_licenses in Hrun.
  fold tags platforms software_list in Hrun.
  apply bind_ok_inv in Hrun as (h & w0 & [Hh ->]%open_read_inv & Hrun).
  apply bind_ok_inv in Hrun as (ft & w0 & [Hf ->]%open_read_inv & Hrun).
  apply bind_ok_inv in Hrun as (r1 & w1 & Hl & Hrun).
  apply (index_software_list_inv _ exclude_licenses) in Hl as [-> Hfs1];
    [|apply exclude_licenses_with_defaults].
  rewrite (bind_ok _ _ _ _ _ (output_file_with_defaults step w1)) in Hrun.
  apply bind_ok_inv in Hrun as ([] & w2 & Hm & Hrun).
  pose proof (for_each_mkdir_written (Step.output_directory step)
                ["/md/"; "/md/tags/"; "/md/platforms/"] w1) as W2.
  rewrite Hm in W2. cbn [snd] in W2.
  apply bind_ok_inv in Hrun as ([] & w3 & Hiw & Hrun).
  destruct (open_write_inv _ _ _ _ _ Hiw) as [[_ ->]|[Hne _]]; [|now destruct Hne].
  apply bind_ok_inv in Hrun as ([] & w4 & Htags & Hrun).
  apply (for_each_pages_inv _ _ (tag_page (with_defaults step)) exclude_licenses)
    in Htags; [|reflexivity | apply exclude_licenses_with_defaults].
  apply bind_ok_inv in Hrun as ([] & w5 & Hplatforms & Hrun).
  apply (for_each_pages_inv _ _ (platform_page (with_defaults step)) exclude_licenses)
    in Hplatforms; [|reflexivity | apply exclude_licenses_with_defaults].
  apply bind_ok_inv in Hrun as ([] & w6 & Hs & Hrun).
  pose proof (except_mkdir_written (Step.output_directory step +:+ "/_static") w5) as W6.
  rewrite Hs in W6. cbn [snd] in W6.
  destruct (open_write_inv _ _ _ _ _ Hrun) as [[_ ->]|[Hne _]]; [|now destruct Hne].
  exists h, ft, log. split; [exact Hh|]. split; [exact Hf|].
  split; [|now split].
  apply (app_inv_head (written (fs w))). rewrite <- W.
  cbn [with_fs fs os.write_file written] in *.
  rewrite W6, Hplatforms, Htags, W2, Hfs1.
  change (tag_page (with_defaults step)) with (tag_page step).
  change (platform_page (with_defaults step)) with (platform_page step).
  unfold index_markdown. fold source_directory tags software_list exclude_licenses.
  rewrite <- !app_assoc. cbn [app]. rewrite (append_assoc ":tocdepth: 2" nl). reflexivity.
Qed.

(** ** What a run leaves alone, however it ends *)

Lemma confined_same_fs {A} (path : string) (made : gset string) (m : M A) :
  (forall w, fs (snd (m w)) = fs w) -> confined path made m.
Proof. intros Hm w. rewrite Hm. split; [reflexivity | apply union_subseteq_l]. Qed.

Lemma confined_bind {A B} (path : string) (made : gset string) (m : M A) (k : A -> M B) :
  confined path made m -> (forall a, confined path made (k a)) ->
  confined path made (bind m k).
Proof.
  intros Hm Hk w. unfold bind. destruct (Hm w) as [F1 D1].
  destruct (m w) as [[a|e] w1]; cbn [snd] in *; [|now split].
  destruct (Hk a w1) as [F2 D2]. split; [congruence|].
  intros d Hd. apply D2 in Hd. apply elem_of_union in Hd as [Hd|Hd];
    [now apply D1 | now apply elem_of_union_r].
Qed.

Lemma confined_bind_pure {A B} (path : string) (made : gset string) (m : M A)
    (k : A -> M B) (a : A) :
  (forall w, m w = (Ok a, w)) -> confined path made (k a) ->
  confined path made (bind m k).
Proof. intros Hm Hk w. unfold bind. rewrite Hm. apply Hk. Qed.

Lemma confined_for_each {A} (path : string) (made : gset string) (body : A -> M unit)
    (l : list A) :
  (forall x, In x l -> confined path made (body x)) ->
  confined path made (for_each body l).
Proof.
  unfold for_each. induction l as [|x l IH]; intros Hb; cbn [for_acc].
  - now apply confined_same_fs.
  - apply confined_bind; [apply Hb; now left|].
    intros []. apply IH. intros y Hy. apply Hb. now right.
Qed.

Lemma confined_except (path : string) (made : gset string) (m : M unit) :
  confined path made m -> confined path made (except_FileExistsError_pass m).
Proof.
  intros Hm w. unfold except_FileExistsError_pass. specialize (Hm w).
  destruct (m w) as [[[]|[]] w1]; exact Hm.
Qed.

Lemma confined_mkdir (path : string) (made : gset string) (directory : string) :
  os.rstrip_slash directory ∈ made -> confined path made (os.mkdir directory).
Proof.
  intros Hin w. destruct (mkdir_cases directory w) as [->|[e ->]];
    [|split; [reflexivity | apply union_subseteq_l]].
  cbn. split; [reflexivity|]. intros d Hd.
  apply elem_of_union in Hd as [Hd|Hd];
    [apply elem_of_singleton in Hd; subst; now apply elem_of_union_r
    | now apply elem_of_union_l].
Qed.

Lemma confined_open_write (path : string) (made : gset string) (file text : string) :
  path <> file -> confined path made (os.open_write file text).
Proof.
  intros Hne w. destruct (open_write_cases file text w) as [[_ ->]|[_ [e ->]]]; cbn;
    (split; [|apply union_subseteq_l]); [|reflexivity].
  apply lookup_insert_ne. congruence.
Qed.

Lemma confined_render_item_page (path : string) (made : gset string) (step : Step.t)
    (item_type : string) (k : PageKind) (item : Item.t) (software_list : list Software.t) :
  (forall w, page_kind step item_type w = (Ok k, w)) ->
  path <> output_dir k +:+ to_kebab_case (Item.name item +:+ ".md") ->
  confined path made (render_item_page step item_type item software_list).
Proof.
  intros Hk Hne w. unfold render_item_page. rewrite (bind_ok _ _ _ _ _ (Hk w)).
  refine (confined_bind path made _ _ _ _ w).
  - apply confined_same_fs. intros w0. apply item_page_software_list_fs.
  - intros r. now apply confined_open_write.
Qed.

(** However a run ends, with or without an exception, it has made no
    directory but [md], [md/tags], [md/platforms] and [_static] of the
    output directory, it has removed none, and every path other than the
    index, the pages of the tags and of the platforms of the source
    directory, and the stylesheet holds what it held before. *)
Theorem run_changes_only_what_it_writes (step : Step.t) (w : World) (path : string) :
  let source_directory := Step.source_directory step in
  let out := Step.output_directory step in
  let after := fs (snd (render_markdown_multipage step w)) in
  path <> out +:+ "/md/" +:+ default "index.md" (Step.output_file step) ->
  (forall tag, In tag (yaml_items (fs w) (source_directory +:+ "/tags")) ->
     path <> out +:+ "/md/tags/" +:+ to_kebab_case (Item.name tag +:+ ".md")) ->
  (forall platform, In platform (yaml_items (fs w) (source_directory +:+ "/platforms")) ->
     path <> out +:+ "/md/platforms/" +:+ to_kebab_case (Item.name platform +:+ ".md")) ->
  path <> source_directory +:+ "/html/_static/custom.css" ->
  files after !! path = files (fs w) !! path
  /\ dirs (fs w) ⊆ dirs after
  /\ dirs after ⊆ dirs (fs w) ∪ {[ out +:+ "/md"; out +:+ "/md/tags";
                                    out +:+ "/md/platforms"; out +:+ "/_static" ]}.
Proof.
  intros source_directory out after Hindex Htags Hplatforms Hcss. subst after.
  set (made := ({[ out +:+ "/md"; out +:+ "/md/tags"; out +:+ "/md/platforms";
                   out +:+ "/_static" ]} : gset string)).
  assert (Hmade : forall directory,
    In directory ["/md/"; "/md/tags/"; "/md/platforms/"; "/_static"] ->
    os.rstrip_slash (out +:+ directory) ∈ made).
  { intros directory Hin. rewrite rstrip_slash_append.
    - subst made. rewrite !elem_of_union, !elem_of_singleton.
      cbn in Hin. destruct Hin as [<-|[<-|[<-|[<-|[]]]]]; cbn; auto.
    - cbn in Hin. destruct Hin as [<-|[<-|[<-|[<-|[]]]]]; discriminate. }
  enough (Hc : files (fs (snd (render_markdown_multipage step w))) !! path
               = files (fs w) !! path
               /\ dirs (fs (snd (render_markdown_multipage step w))) ⊆ dirs (fs w) ∪ made).
  { destruct Hc as [Hf Hd]. split; [exact Hf|]. split; [|exact Hd].
    apply orderly_render_markdown_multipage. }
  unfold render_markdown_multipage. cbv zeta.
  change (Step.source_directory (with_defaults step)) with source_directory.
  change (Step.output_directory (with_defaults step)) with out.
  rewrite !bind_load_yaml_items, bind_load_yaml_software, bind_load_yaml_licenses.
  set (tags := yaml_items (fs w) (source_directory +:+ "/tags")) in *.
  set (platforms := yaml_items (fs w) (source_directory +:+ "/platforms")) in *.
  set (software_list := yaml_software (fs w) (source_directory +:+ "/software")).
  set (licenses := yaml_licenses (fs w) (source_directory +:+ "/licenses.yml")).
  match goal with |- context [snd (?m w)] =>
    enough (Hc : confined path made m) by exact (Hc w) end.
  apply confined_bind; [|intros markdown_header].
  { apply confined_same_fs. intros w0. unfold os.open_read. now destruct (_ !! _). }
  apply confined_bind; [|intros markdown_footer].
  { apply confined_same_fs. intros w0. unfold os.open_read. now destruct (_ !! _). }
  apply confined_bind; [|intros markdown_software_list].
  { apply confined_same_fs. intros w0. apply index_software_list_fs. }
  apply (confined_bind_pure _ _ _ _ (output_file_name_of step));
    [apply output_file_with_defaults|].
  apply confined_bind; [|intros _].
  { apply confined_for_each. intros directory Hin.
    apply confined_except, confined_mkdir, Hmade.
    cbn in *. tauto. }
  apply confined_bind; [|intros _].
  { apply confined_open_write. exact Hindex. }
  apply confined_bind; [|intros _].
  { apply confined_for_each. intros tag Hin.
    apply (confined_render_item_page _ _ _ _ (tag_page (with_defaults step)));
      [reflexivity|].
    cbn [tag_page output_dir]. change (Step.output_directory (with_defaults step)) with out.
    rewrite append_assoc. now apply Htags. }
  apply confined_bind; [|intros _].
  { apply confined_for_each. intros platform Hin.
    apply (confined_render_item_page _ _ _ _ (platform_page (with_defaults step)));
      [reflexivity|].
    cbn [platform_page output_dir].
    change (Step.output_directory (with_defaults step)) with out.
    rewrite append_assoc. now apply Hplatforms. }
  apply confined_bind; [|intros _].
  { apply confined_except, confined_mkdir, Hmade. cbn. tauto. }
  now apply confined_open_write.
Qed.

(** ** Dates, keys, defaults, links *)

(** [strptime] with the format [%Y-%m-%d] returns the midnight of a day. *)
Lemma strptime_ymd_midnight (s : string) (t : datetime.t) :
  datetime.strptime_ymd s = Some t ->
  exists day : Z, t = (day * datetime.microseconds_per_day)%Z.
Proof.
  unfold datetime.strptime_ymd. intros Hs.
  repeat match type of Hs with
         | context [match ?x with _ => _ end] => destruct x; try discriminate
         end.
  unfold datetime.of_ymd in Hs.
  match type of Hs with context [if ?c then _ else _] => destruct c end;
    [|discriminate].
  injection Hs as <-. now eexists.
Qed.

Lemma date_css_class_of_dated (software : Software.t) (updated_at : string)
    (last_update_time : datetime.t) (w : World) :
  Software.updated_at software = Some updated_at ->
  datetime.strptime_ymd updated_at = Some last_update_time ->
  fst (date_css_class_of software w)
  = Ok (if (last_update_time <? clock w 0 - 365 * 86400000000)%Z then "redbox"
        else if (last_update_time <? clock w 1 - 186 * 86400000000)%Z then "orangebox"
        else "updated-at").
Proof.
  intros Hu Ht. unfold date_css_class_of. rewrite Hu, Ht.
  unfold bind, ret, datetime_now. cbn.
  change (datetime.timedelta 365) with (365 * 86400000000)%Z.
  change (datetime.timedelta 186) with (186 * 86400000000)%Z.
  destruct (last_update_time <? clock w 0 - 365 * 86400000000)%Z; cbn; [reflexivity|].
  now destruct (last_update_time <? clock w 1 - 186 * 86400000000)%Z.
Qed.

(** The class of the age badge in whole days: when both readings of the
    clock fall on the day [today], after its midnight, a date that lies
    [today - day] days back gets [redbox] from 365 days on, [orangebox] from
    186 to 364 days, and [updated-at] for 185 days or fewer. *)
Theorem age_class_by_whole_days (software : Software.t) (updated_at : string)
    (last_update_time : datetime.t) (w : World) (today first second : Z) :
  Software.updated_at software = Some updated_at ->
  datetime.strptime_ymd updated_at = Some last_update_time ->
  clock w 0 = (today * datetime.microseconds_per_day + first)%Z ->
  clock w 1 = (today * datetime.microseconds_per_day + second)%Z ->
  (0 < first < datetime.microseconds_per_day)%Z ->
  (0 < second < datetime.microseconds_per_day)%Z ->
  exists day : Z,
    last_update_time = (day * datetime.microseconds_per_day)%Z
    /\ fst (date_css_class_of software w)
       = Ok (if (365 <=? today - day)%Z then "redbox"
             else if (186 <=? today - day)%Z then "orangebox"
             else "updated-at").
Proof.
  intros Hu Ht H0 H1 Hfirst Hsecond.
  destruct (strptime_ymd_midnight _ _ Ht) as [day ->]. exists day.
  split; [reflexivity|].
  rewrite (date_css_class_of_dated software updated_at _ w Hu Ht), H0, H1.
  unfold datetime.microseconds_per_day in *.
  destruct (365 <=? today - day)%Z eqn:E365.
  - apply Z.leb_le in E365.
    replace (day * (86400 * 1000000) <? today * (86400 * 1000000) + first - 365 * 86400000000)%Z
      with true by (symmetry; apply Z.ltb_lt; lia).
    reflexivity.
  - apply Z.leb_gt in E365.
    replace (day * (86400 * 1000000) <? today * (86400 * 1000000) + first - 365 * 86400000000)%Z
      with false by (symmetry; apply Z.ltb_ge; lia).
    destruct (186 <=? today - day)%Z eqn:E186.
    + apply Z.leb_le in E186.
      replace (day * (86400 * 1000000)
               <? today * (86400 * 1000000) + second - 186 * 86400000000)%Z
        with true by (symmetry; apply Z.ltb_lt; lia).
      reflexivity.
    + apply Z.leb_gt in E186.
      replace (day * (86400 * 1000000)
               <? today * (86400 * 1000000) + second - 186 * 86400000000)%Z
        with false by (symmetry; apply Z.ltb_ge; lia).
      reflexivity.
Qed.

(** At the stroke of midnight the comparison is strict the other way: a
    date exactly 365 days before a clock that reads midnight is not
    [redbox] but [orangebox]. *)
Theorem age_class_at_midnight (software : Software.t) (updated_at : string)
    (last_update_time : datetime.t) (w : World) :
  Software.updated_at software = Some updated_at ->
  datetime.strptime_ymd updated_at = Some last_update_time ->
  clock w 0 = (last_update_time + datetime.timedelta 365)%Z ->
  clock w 1 = clock w 0 ->
  fst (date_css_class_of software w) = Ok "orangebox".
Proof.
  intros Hu Ht H0 H1.
  rewrite (date_css_class_of_dated software updated_at _ w Hu Ht), H1, H0.
  unfold datetime.timedelta, datetime.microseconds_per_day.
  replace (last_update_time <? last_update_time + 365 * (86400 * 1000000)
                               - 365 * 86400000000)%Z
    with false by (symmetry; apply Z.ltb_ge; lia).
  replace (last_update_time <? last_update_time + 365 * (86400 * 1000000)
                               - 186 * 86400000000)%Z
    with true by (symmetry; apply Z.ltb_lt; lia).
  reflexivity.
Qed.

(** A project without the key [platforms] is rendered like a project with
    no platform at all, and it is shown on the page of no platform,
    whatever the name of the platform. *)
Theorem no_platforms_key (software : Software.t) (a b c : string) :
  Software.platforms software = None ->
  fragment a b c software = fragment a b c (with_platforms [] software)
  /\ (forall step item exclude_licenses software_list,
        ~ In software
            (page_projects (platform_page step) item exclude_licenses software_list))
  /\ (forall step item exclude_licenses software_list,
        In software software_list ->
        any_license_excluded software exclude_licenses = false ->
        (In software (page_projects (tag_page step) item exclude_licenses software_list)
         <-> In (Item.name item) (Software.tags software))).
Proof.
  intros Hp. split; [|split].
  - unfold fragment, with_platforms. cbn. now rewrite Hp.
  - intros step item excl sl [_ Hin]%filter_In.
    apply andb_true_iff in Hin as [_ Hm]. unfold matches, platform_page in Hm. cbn in Hm.
    rewrite Hp in Hm. discriminate.
  - intros step item excl sl Hin Hx. unfold page_projects.
    rewrite filter_In, Hx. cbn [negb andb]. unfold matches, tag_page. cbn [match_key].
    rewrite existsb_exists. split.
    + intros [_ (value & Hv & ->%String.eqb_eq)]. exact Hv.
    + intros Hv. split; [exact Hin|]. exists (Item.name item).
      split; [exact Hv | apply String.eqb_refl].
Qed.

Lemma with_defaults_idempotent (step : Step.t) :
  with_defaults (with_defaults step) = with_defaults step.
Proof.
  unfold with_defaults. cbn.
  now destruct (Step.exclude_licenses step), (Step.output_file step).
Qed.

(** Leaving [exclude_licenses] and [output_file] out of the options is the
    same as giving the empty list and [index.md]: the run is the run of the
    step with its defaults written out, and options that are given are
    kept. *)
Theorem defaults_are_explicit (source_directory output_directory : string)
    (exclude_licenses : option (list string)) (output_file : option string) (w : World) :
  let step := {| Step.source_directory := source_directory;
                 Step.output_directory := output_directory;
                 Step.exclude_licenses := exclude_licenses;
                 Step.output_file := output_file |} in
  render_markdown_multipage step w
  = render_markdown_multipage
      {| Step.source_directory := source_directory;
         Step.output_directory := output_directory;
         Step.exclude_licenses := Some (default [] exclude_licenses);
         Step.output_file := Some (default "index.md" output_file) |} w.
Proof.
  cbv zeta. unfold render_markdown_multipage. cbv zeta.
  match goal with |- context [with_defaults ?s] =>
    replace (with_defaults s)
      with {| Step.source_directory := source_directory;
              Step.output_directory := output_directory;
              Step.exclude_licenses := Some (default [] exclude_licenses);
              Step.output_file := Some (default "index.md" output_file) |}
      by (unfold with_defaults; cbn; now destruct exclude_licenses, output_file)
  end.
  reflexivity.
Qed.

Lemma all_chars_append (p : ascii -> bool) (a b : string) :
  all_chars p (a +:+ b) = all_chars p a && all_chars p b.
Proof.
  induction a as [|c a IH]; [reflexivity|].
  rewrite append_cons. cbn [all_chars]. now rewrite IH, andb_assoc.
Qed.

Lemma quote_byte_chars (c : ascii) :
  all_chars quoted_char (urllib_parse.quote_byte c) = true.
Proof. destruct c as [[] [] [] [] [] [] [] []]; vm_compute; reflexivity. Qed.

Lemma quote_chars (s : string) : all_chars quoted_char (urllib_parse.quote s) = true.
Proof.
  induction s as [|c s IH]; [reflexivity|].
  cbn [urllib_parse.quote]. now rewrite all_chars_append, quote_byte_chars, IH.
Qed.

Lemma all_chars_not_contains (p : ascii -> bool) (c : ascii) (s : string) :
  p c = false -> all_chars p s = true -> contains (String c "") s = false.
Proof.
  intros Hc. induction s as [|x s IH]; [reflexivity|].
  cbn [all_chars contains String.prefix]. intros [Hx Hs]%andb_true_iff.
  rewrite (IH Hs), orb_false_r.
  destruct (ascii_dec c x) as [->|_]; [congruence | reflexivity].
Qed.

(** Every dict that the renderer hands to the template for a label bears
    the label as its name and links to the link base, a slug and [.html];
    the slug is made of letters, digits and [_.-~/%] only, so that it holds
    no double quote, no space and no angle bracket, whatever the label. *)
Theorem badge_links_are_quoted (relative_url : string) (labels : list string)
    (badge : Badge.t) :
  In badge (dicts_list relative_url labels) ->
  exists slug,
    In (Badge.name badge) labels
    /\ slug = urllib_parse.quote (to_kebab_case (Badge.name badge))
    /\ Badge.href badge = relative_url +:+ slug +:+ ".html"
    /\ all_chars quoted_char slug = true
    /\ contains dq slug = false
    /\ contains " " slug = false
    /\ contains "<" slug = false
    /\ contains ">" slug = false.
Proof.
  rewrite dicts_list_map, in_map_iff. intros (label & <- & Hin).
  eexists. split; [exact Hin|]. split; [reflexivity|]. split; [reflexivity|].
  pose proof (quote_chars (to_kebab_case label)) as Hq. cbn [Badge.name].
  split; [exact Hq|].
  repeat split; now apply (all_chars_not_contains quoted_char).
Qed.

(** ** A run that ends well *)











(** ** Lines, links and extensions *)

(** A line of a block of lines that a line feed follows. *)
Lemma has_line {A} (f : A -> string) (x : A) (l : list A) (rest : string) :
  In x l ->
  has_part (nl +:+ f x +:+ nl) (join (map (fun y => nl +:+ f y) l) +:+ nl +:+ rest).
Proof.
  induction l as [|y l IH]; intros Hin; [destruct Hin|].
  cbn [map join]. destruct Hin as [->|Hin].
  - destruct l as [|z l].
    + exists "", rest. cbn [map join]. now rewrite !append_assoc, !append_nil_l.
    + exists "", (f z +:+ join (map (fun y => nl +:+ f y) l) +:+ nl +:+ rest).
      cbn [map join]. now rewrite !append_assoc, !append_nil_l.
  - rewrite append_assoc. apply has_part_append_r. now apply IH.
Qed.

Lemma toctree_line (tags : list Item.t) (tag : Item.t) :
  In tag tags ->
  has_part (nl +:+ "tags/" +:+ to_kebab_case (Item.name tag +:+ ".md") +:+ nl)
    (render_markdown_toctree tags).
Proof.
  intros Hin. unfold render_markdown_toctree. cbv zeta.
  rewrite (fold_left_append
             (fun tag => nl +:+ "tags/" +:+ to_kebab_case (Item.name tag +:+ ".md"))).
  rewrite append_nil_l. do 7 apply has_part_append_r.
  exact (has_line (fun tag => "tags/" +:+ to_kebab_case (Item.name tag +:+ ".md"))
           tag tags _ Hin).
Qed.

(** A page renderer that ended without an exception has written one file,
    in the directory of its kind. *)
Lemma render_item_page_written (step : Step.t) (item_type : string) (item : Item.t)
    (software_list : list Software.t) (w w' : World) :
  render_item_page step item_type item software_list w = (Ok tt, w') ->
  exists directory markdown_page,
    ((item_type = "tag" /\ directory = "/md/tags/")
     \/ (item_type = "platform" /\ directory = "/md/platforms/"))
    /\ fs w' = os.write_file
                 (Step.output_directory step +:+ directory
                  +:+ to_kebab_case (Item.name item +:+ ".md"))
                 markdown_page (fs w).
Proof.
  intros Hrun. unfold render_item_page in Hrun.
  apply bind_ok_inv in Hrun as (k & w0 & Hk & Hrun).
  destruct (page_kind_cases _ _ _ _ _ Hk) as [-> Hcases].
  apply bind_ok_inv in Hrun as (r & w1 & Hl & Hw).
  pose proof (item_page_software_list_fs step k item software_list w) as Hfs.
  rewrite Hl in Hfs. cbn [snd] in Hfs.
  destruct (open_write_inv _ _ _ _ _ Hw) as [[_ ->]|[Hne _]]; [|now destruct Hne].
  cbn [with_fs fs]. rewrite Hfs.
  destruct Hcases as [[-> ->]|[-> ->]]; cbn [tag_page platform_page output_dir];
    rewrite append_assoc; eauto 10.
Qed.




(** Every tag of the source directory has its line in the toctree,
    [tags/] and the name of its page file; a call of [render_item_page]
    for the tag that ends without an exception writes one file, at the path
    of that line taken from the directory of the index; and a run that ends
    without an exception has the line in the index it wrote first, a write
    to that path after it, and a file there at the end. *)
Theorem toctree_entries_name_the_pages (step : Step.t) (w : World) (tag : Item.t) :
  let tags := yaml_items (fs w) (Step.source_directory step +:+ "/tags") in
  let entry := "tags/" +:+ to_kebab_case (Item.name tag +:+ ".md") in
  let page := Step.output_directory step +:+ "/md/" +:+ entry in
  let after := fs (snd (render_markdown_multipage step w)) in
  In tag tags ->
  fst (render_markdown_multipage step w) = Ok tt ->
  has_part (nl +:+ entry +:+ nl) (render_markdown_toctree tags)
  /\ (forall software_list w0 w1,
        render_item_page step "tag" tag software_list w0 = (Ok tt, w1) ->
        exists markdown_page,
          written (fs w1) = (written (fs w0) ++ [(page, markdown_page)])%list)
  /\ (exists index rest,
        written after
        = (written (fs w)
           ++ (Step.output_directory step +:+ "/md/"
               +:+ default "index.md" (Step.output_file step), index) :: rest)%list
        /\ has_part (nl +:+ entry +:+ nl) index
        /\ In page (map fst rest))
  /\ is_Some (files after !! page).
Proof.
  intros tags entry page after Hin Hok. subst after.
  assert (Hline : has_part (nl +:+ entry +:+ nl) (render_markdown_toctree tags)).
  { subst entry. rewrite append_assoc. now apply toctree_line. }
  assert (Hpage : page = page_path (tag_page step) tag).
  { subst page entry. unfold page_path. cbn [tag_page output_dir].
    now rewrite !append_assoc. }
  destruct (run_ended_well step w Hok) as (h & ft & log & Hh & Hf & Hlog & W & F).
  fold tags in Hlog.
  assert (Hwritten : In page
    (map fst (pages_written (tag_page step) (default [] (Step.exclude_licenses step))
                (yaml_software (fs w) (Step.source_directory step +:+ "/software")) tags
              ++ pages_written (platform_page step) (default [] (Step.exclude_licenses step))
                   (yaml_software (fs w) (Step.source_directory step +:+ "/software"))
                   (yaml_items (fs w) (Step.source_directory step +:+ "/platforms"))
              ++ [(Step.source_directory step +:+ "/html/_static/custom.css",
                   MARKDOWN_CSS)])%list)).
  { rewrite map_app. apply in_or_app. left. unfold pages_written. rewrite map_map.
    cbn [fst]. rewrite Hpage. apply in_map_iff. now exists tag. }
  split; [exact Hline|]. split; [|split].
  - intros software_list w0 w1 Hrun.
    destruct (render_item_page_written _ _ _ _ _ _ Hrun)
      as (directory & markdown_page & [[_ ->]|[Hno _]] & Hfs); [|discriminate].
    exists markdown_page. rewrite Hfs. reflexivity.
  - eexists _, _. rewrite W, Hlog. split; [reflexivity|]. split; [|exact Hwritten].
    unfold index_markdown. fold tags.
    do 3 apply has_part_append_r. apply has_part_append_l. exact Hline.
  - rewrite F. apply (replay_written log (files (fs w)) (files (fs w))).
    rewrite Hlog. cbn [map]. right. exact Hwritten.
Qed.


(** C7: two runs of the pipeline that find the same records, the same
    header and footer and the same configuration, and that both end without
    an exception, make the same writes in the same order, the same text to
    the same path, and every path they write holds the same text after the
    one run as after the other.  Nothing is asked of the rest of the two
    disks, which may hold the output of an earlier run, nor of the clocks
    of the two runs. *)
Theorem rerun_is_identical (step : Step.t) (w1 w2 : World) :
  let source_directory := Step.source_directory step in
  let after1 := fs (snd (render_markdown_multipage step w1)) in
  let after2 := fs (snd (render_markdown_multipage step w2)) in
  yaml_items (fs w1) (source_directory +:+ "/tags")
  = yaml_items (fs w2) (source_directory +:+ "/tags") ->
  yaml_items (fs w1) (source_directory +:+ "/platforms")
  = yaml_items (fs w2) (source_directory +:+ "/platforms") ->
  yaml_software (fs w1) (source_directory +:+ "/software")
  = yaml_software (fs w2) (source_directory +:+ "/software") ->
  yaml_licenses (fs w1) (source_directory +:+ "/licenses.yml")
  = yaml_licenses (fs w2) (source_directory +:+ "/licenses.yml") ->
  files (fs w1) !! (source_directory +:+ "/markdown/header.md")
  = files (fs w2) !! (source_directory +:+ "/markdown/header.md") ->
  files (fs w1) !! (source_directory +:+ "/markdown/footer.md")
  = files (fs w2) !! (source_directory +:+ "/markdown/footer.md") ->
  fst (render_markdown_multipage step w1) = Ok tt ->
  fst (render_markdown_multipage step w2) = Ok tt ->
  exists log,
    written after1 = (written (fs w1) ++ log)%list
    /\ written after2 = (written (fs w2) ++ log)%list
    /\ In (Step.output_directory step +:+ "/md/"
           +:+ default "index.md" (Step.output_file step)) (map fst log)
    /\ forall path, In path (map fst log) ->
         is_Some (files after1 !! path)
         /\ files after1 !! path = files after2 !! path.
Proof.
  intros source_directory after1 after2 Ht Hp Hs Hl Hh Hf Hok1 Hok2.
  subst after1 after2.
  destruct (run_ended_well step w1 Hok1) as (h1 & ft1 & log1 & Hh1 & Hf1 & Hlog1 & W1 & F1).
  destruct (run_ended_well step w2 Hok2) as (h2 & ft2 & log2 & Hh2 & Hf2 & Hlog2 & W2 & F2).
  fold source_directory in Hh1, Hf1, Hh2, Hf2, Hlog1, Hlog2.
  assert (Hlog : log2 = log1).
  { rewrite Hlog1, Hlog2. unfold index_markdown. fold source_directory.
    rewrite Ht, Hp, Hs, Hl. congruence. }
  clear Hlog2. subst log2. exists log1. split; [exact W1|]. split; [exact W2|]. split.
  - rewrite Hlog1. now left.
  - intros path Hin. rewrite F1, F2. now apply replay_written.
Qed.


End further_properties.

(** ** The further properties on the sample source directory *)

Section further_examples.
#[local] Existing Instance sample_utils.

Lemma missing_header_or_footer_aborts_witness :
  render_markdown_multipage (sample_step None) sample_world_without_header
  = (Raise (FileNotFoundError "data/markdown/header.md"), sample_world_without_header).
Proof.
  assert (Hplain : os.plain (Step.source_directory (sample_step None)) = true)
    by (vm_compute; reflexivity).
  assert (Hmiss : files (fs sample_world_without_header) !! "data/markdown/header.md" = None)
    by (vm_compute; reflexivity).
  rewrite (missing_header_or_footer_aborts (sample_step None) sample_world_without_header
             Hplain (or_introl Hmiss)).
  reflexivity.
Defined.

Lemma unreadable_date_aborts_witness :
  exists software updated_at,
    In software [foo; baz; bar]
    /\ Software.updated_at software = Some updated_at
    /\ fst (render_markdown_multipage (sample_step None) sample_world_with_baz)
       = Raise (ValueError updated_at)
    /\ fs (snd (render_markdown_multipage (sample_step None) sample_world_with_baz))
       = fs sample_world_with_baz.
Proof.
  destruct (unreadable_date_aborts (sample_step None) sample_world_with_baz
              ("# Sample list" +:+ nl) (nl +:+ "## Contributing" +:+ nl))
    as (software & d & Hin & _ & Hu & _ & Hr & Hfs); try (vm_compute; reflexivity).
  exists software, d. repeat split; assumption.
Defined.

(** With [baz] excluded by its license, its date stops nothing. *)
Example excluded_project_is_not_rendered :
  fst (render_markdown_multipage (sample_step (Some ["Proprietary"])) sample_world_with_baz)
  = Ok tt.
Proof. vm_compute. reflexivity. Qed.

Lemma missing_output_directory_aborts_witness :
  fst (render_markdown_multipage (sample_step None) sample_world_without_out)
  = Raise (FileNotFoundError "out/md/")
  /\ fs (snd (render_markdown_multipage (sample_step None) sample_world_without_out))
     = fs sample_world_without_out.
Proof.
  apply (missing_output_directory_aborts (sample_step None) sample_world_without_out
           ("# Sample list" +:+ nl) (nl +:+ "## Contributing" +:+ nl));
    vm_compute; reflexivity.
Defined.

Lemma item_page_without_exclusion_list_witness :
  render_item_page (sample_step None) "tag" wikis [foo; bar] sample_world_with_pages
  = (Raise (KeyError "exclude_licenses"), sample_world_with_pages)
  /\ fst (render_item_page (sample_step None) "tag" wikis [] sample_world_with_pages)
     = Ok tt.
Proof.
  destruct (item_page_without_exclusion_list (sample_step None) "tag"
              (tag_page (sample_step None)) wikis foo [bar] sample_world_with_pages
              eq_refl eq_refl) as [Hraise Hempty].
  split; [exact Hraise|]. rewrite Hempty. vm_compute. reflexivity.
Defined.

Lemma item_page_unreadable_date_witness :
  fst (render_item_page (sample_step (Some [])) "tag" games [foo; baz]
         sample_world_with_pages) = Raise (ValueError "soon")
  /\ fs (snd (render_item_page (sample_step (Some [])) "tag" games [foo; baz]
                sample_world_with_pages)) = fs sample_world_with_pages.
Proof.
  destruct (item_page_unreadable_date (sample_step (Some [])) "tag"
              (tag_page (sample_step (Some []))) games [] [foo; baz]
              sample_world_with_pages eq_refl eq_refl)
    as (software & d & _ & _ & _ & _ & Hfs); [vm_compute; reflexivity|].
  split; [vm_compute; reflexivity | exact Hfs].
Defined.

Lemma render_item_page_frame_witness :
  files (fs (snd (render_item_page (sample_step (Some [])) "tag" wikis [foo; bar]
                    sample_world_with_pages))) !! "data/markdown/header.md"
  = Some ("# Sample list" +:+ nl).
Proof.
  destruct (render_item_page_frame (sample_step (Some [])) "tag" wikis [foo; bar]
              sample_world_with_pages "data/markdown/header.md") as [Hfile _];
    [vm_compute; discriminate | vm_compute; discriminate|].
  rewrite Hfile. vm_compute. reflexivity.
Defined.

Lemma same_path_last_page_wins_witness :
  page_path (tag_page (sample_step (Some []))) wikis_lower = "out/md/tags/wikis.md"
  /\ exists w1 w2,
       render_item_page (sample_step (Some [])) "tag" wikis [foo; bar]
         sample_world_with_pages = (Ok tt, w1)
       /\ render_item_page (sample_step (Some [])) "tag" wikis_lower [foo; bar] w1
          = (Ok tt, w2)
       /\ files (fs w2) !! "out/md/tags/wikis.md"
          = Some (TAG_HEADER_JINJA_MARKDOWN wikis_lower).
Proof.
  split; [vm_compute; reflexivity|].
  assert (Hkind : page_kind (sample_step (Some [])) "tag" sample_world_with_pages
                  = (Ok (tag_page (sample_step (Some []))), sample_world_with_pages))
    by reflexivity.
  assert (Hdated : forallb well_dated (index_projects [] [foo; bar]) = true)
    by (vm_compute; reflexivity).
  assert (Hwrite : os.can_write (fs sample_world_with_pages)
                     (page_path (tag_page (sample_step (Some []))) wikis) = true)
    by (vm_compute; reflexivity).
  assert (Hsame : page_path (tag_page (sample_step (Some []))) wikis_lower
                  = page_path (tag_page (sample_step (Some []))) wikis)
    by (vm_compute; reflexivity).
  destruct (same_path_last_page_wins (sample_step (Some [])) "tag"
              (tag_page (sample_step (Some []))) wikis wikis_lower [] [foo; bar]
              sample_world_with_pages Hkind eq_refl Hdated Hwrite Hsame)
    as (w1 & w2 & H1 & H2 & Hfile & _).
  exists w1, w2. split; [exact H1|]. split; [exact H2|].
  assert (Hpath : page_path (tag_page (sample_step (Some []))) wikis = "out/md/tags/wikis.md")
    by (vm_compute; reflexivity).
  rewrite Hpath in Hfile. rewrite Hfile. vm_compute. reflexivity.
Defined.

Lemma run_writes_exactly_witness :
  map fst (written (fs (snd (render_markdown_multipage (sample_step None)
                               (sample_world true)))))
  = ["out/md/index.md"; "out/md/tags/games.md"; "out/md/tags/wikis.md";
     "out/md/platforms/python.md"; "data/html/_static/custom.css"].
Proof.
  destruct (run_writes_exactly (sample_step None) (sample_world true))
    as (h & ft & _ & _ & Hw); [vm_compute; reflexivity|].
  rewrite Hw. vm_compute. reflexivity.
Defined.

Lemma age_class_by_whole_days_witness :
  fst (date_css_class_of (updated_on "2026-05-01") (sample_world true)) = Ok "orangebox".
Proof.
  destruct (age_class_by_whole_days (updated_on "2026-05-01") "2026-05-01"
              (datetime.ymd2ord 2026 5 1 * datetime.microseconds_per_day)%Z
              (sample_world true) (datetime.ymd2ord 2026 11 3)
              43200000000 43201000000 eq_refl)
    as (day & Hday & Hclass);
    [vm_compute; reflexivity | vm_compute; reflexivity | vm_compute; reflexivity
    | split; reflexivity | split; reflexivity |].
  rewrite Hclass.
  assert (Hd : day = datetime.ymd2ord 2026 5 1).
  { apply (Z.mul_cancel_r _ _ datetime.microseconds_per_day); [discriminate | now symmetry]. }
  rewrite Hd. vm_compute. reflexivity.
Defined.

Lemma age_class_at_midnight_witness :
  fst (date_css_class_of (updated_on "2025-11-03")
         {| fs := fs (sample_world true);
            clock := fun _ => (datetime.ymd2ord 2026 11 3
                               * datetime.microseconds_per_day)%Z |})
  = Ok "orangebox".
Proof.
  apply (age_class_at_midnight (updated_on "2025-11-03") "2025-11-03"
           (datetime.ymd2ord 2025 11 3 * datetime.microseconds_per_day)%Z);
    vm_compute; reflexivity.
Defined.

Lemma no_platforms_key_witness :
  Software.platforms baz = None
  /\ ~ In baz (page_projects (platform_page (sample_step None)) python [] [foo; baz; bar]).
Proof.
  split; [reflexivity|].
  apply (no_platforms_key baz "" "" "" eq_refl).
Defined.

Lemma badge_links_are_quoted_witness :
  exists slug,
    Badge.href {| Badge.name := "Note-taking & Editors";
                  Badge.href := "./note-taking-%26-editors.html" |}
    = "./" +:+ slug +:+ ".html"
    /\ contains dq slug = false.
Proof.
  destruct (badge_links_are_quoted "./" ["Wikis"; "Note-taking & Editors"]
              {| Badge.name := "Note-taking & Editors";
                 Badge.href := "./note-taking-%26-editors.html" |})
    as (slug & _ & _ & Hhref & _ & Hdq & _); [right; left; vm_compute; reflexivity|].
  exists slug. split; assumption.
Defined.


Lemma run_changes_only_what_it_writes_witness :
  files (fs (snd (render_markdown_multipage (sample_step None) (sample_world true))))
    !! "data/markdown/header.md"
  = Some ("# Sample list" +:+ nl)
  /\ dirs (fs (snd (render_markdown_multipage (sample_step None) (sample_world true))))
     ⊆ dirs (fs (sample_world true))
       ∪ {[ "out/md"; "out/md/tags"; "out/md/platforms"; "out/_static" ]}.
Proof.
  destruct (run_changes_only_what_it_writes (sample_step None) (sample_world true)
              "data/markdown/header.md") as (Hfile & _ & Hdirs).
  - vm_compute. discriminate.
  - intros tag Hin. vm_compute in Hin. destruct Hin as [<-|[<-|[]]]; vm_compute; discriminate.
  - intros platform Hin. vm_compute in Hin. destruct Hin as [<-|[]]; vm_compute; discriminate.
  - vm_compute. discriminate.
  - split; [|exact Hdirs]. rewrite Hfile. vm_compute. reflexivity.
Defined.

Lemma toctree_entries_name_the_pages_witness :
  has_part (nl +:+ "tags/wikis.md" +:+ nl) (render_markdown_toctree [games; wikis])
  /\ is_Some (files (fs (snd (render_markdown_multipage (sample_step None)
                                (sample_world true)))) !! "out/md/tags/wikis.md").
Proof.
  assert (Hin : In wikis (yaml_items (fs (sample_world true))
                            (Step.source_directory (sample_step None) +:+ "/tags")))
    by (right; left; reflexivity).
  assert (Hok : fst (render_markdown_multipage (sample_step None) (sample_world true))
                = Ok tt) by (vm_compute; reflexivity).
  destruct (toctree_entries_name_the_pages (sample_step None) (sample_world true) wikis
              Hin Hok) as (Hline & _ & _ & Hfile).
  split; [exact Hline | exact Hfile].
Defined.


Lemma rerun_is_identical_witness :
  exists log,
    written (fs (snd (render_markdown_multipage (sample_step None) (sample_world true))))
    = (written (fs (sample_world true)) ++ log)%list
    /\ written (fs (snd (render_markdown_multipage (sample_step None) sample_world_rerun)))
       = (written (fs sample_world_rerun) ++ log)%list
    /\ forall path, In path (map fst log) ->
         files (fs (snd (render_markdown_multipage (sample_step None) (sample_world true))))
           !! path
         = files (fs (snd (render_markdown_multipage (sample_step None) sample_world_rerun)))
             !! path.
Proof.
  destruct (rerun_is_identical (sample_step None) (sample_world true) sample_world_rerun)
    as (log & W1 & W2 & _ & Hsame);
    [vm_compute; reflexivity | vm_compute; reflexivity | vm_compute; reflexivity
    | vm_compute; reflexivity | vm_compute; reflexivity | vm_compute; reflexivity
    | vm_compute; reflexivity | vm_compute; reflexivity |].
  exists log. split; [exact W1|]. split; [exact W2|].
  intros path Hin. now apply Hsame.
Defined.

(** The second run of the witness starts on a disk that holds the output
    of the first, with another clock, and writes the same five files. *)
Example rerun_on_the_output :
  map fst (written (fs sample_world_rerun))
  = ["out/md/index.md"; "out/md/tags/games.md"; "out/md/tags/wikis.md";
     "out/md/platforms/python.md"; "data/html/_static/custom.css"]
  /\ written (fs (snd (render_markdown_multipage (sample_step None) sample_world_rerun)))
     = (written (fs sample_world_rerun) ++ written (fs sample_world_rerun))%list
  /\ files (fs (snd (render_markdown_multipage (sample_step None) sample_world_rerun)))
     = files (fs sample_world_rerun).
Proof. repeat split; vm_compute; reflexivity. Qed.


(** The first [mkdir] of a run whose output directory is a regular
    file. *)
Example file_where_the_output_directory_goes :
  fst (render_markdown_multipage (sample_step None) sample_world_file_at_out)
  = Raise (NotADirectoryError "out/md/").
Proof. vm_compute. reflexivity. Qed.

(** [strptime] reads the decimal digits of every script: these three
    texts are the first day of 2020, and the renderer reads the first as
    it reads the last. *)
Example dates_in_other_digits :
  datetime.strptime_ymd "٢٠٢٠-01-01" = datetime.strptime_ymd "2020-01-01"
  /\ datetime.strptime_ymd "２０２０-1-1" = datetime.strptime_ymd "2020-01-01"
  /\ datetime.strptime_ymd "2020-01-01"
     = Some (datetime.ymd2ord 2020 1 1 * datetime.microseconds_per_day)%Z
  /\ datetime.strptime_ymd "2020-٠١-01" = None
  /\ fst (date_css_class_of (updated_on "٢٠٢٠-01-01") (sample_world true)) = Ok "redbox".
Proof. repeat split; vm_compute; reflexivity. Qed.

End further_examples.

(** ** The extension of the page files under the slug of section 4.1 *)

Section hyphenating_examples.
#[local] Existing Instance hyphenating_utils.


End hyphenating_examples.
